(** * lambda-codepipeline-github-status: the handler of [handler.go]

    A shallow embedding of [extractRepoName] and [HandleLambdaEvent]
    and the properties of the repository's specification about them.

    Go strings are byte strings: they are [string] (a list of [ascii]).
    Go's [(T, error)] results are [result T]; a returned [error] that may
    be [nil] is [option error].  The calls that leave the process (the
    CodePipeline lookup, the HTTP POST, the logger) are recorded in a
    trace, in the order the handler makes them. *)

From Stdlib Require Import String Ascii List ZArith Lia DecimalString.
From stdpp Require Import base option list gmap strings.

Local Open Scope string_scope.
Local Open Scope list_scope.
Local Open Scope Z_scope.

(** ** Errors *)

Module Go.

(** [errors.New] and [fmt.Errorf] without [%w] give an error that is its
    message; [fmt.Errorf] with [%w] keeps the wrapped error next to the
    formatted message. *)
Inductive error : Type :=
| errorString (s : string)
| wrapError (msg : string) (err : error).

(** The [Error()] method. *)
Definition Error (e : error) : string :=
  match e with
  | errorString s => s
  | wrapError msg _ => msg
  end.

(** The [Unwrap()] method of the errors package. *)
Definition Unwrap (e : error) : option error :=
  match e with
  | errorString _ => None
  | wrapError _ err => Some err
  end.

Inductive result (A : Type) : Type :=
| Ok (a : A)
| Err (e : error).
Arguments Ok {A} a.
Arguments Err {A} e.

(** [%d] of an [int]. *)
Definition itoa (n : Z) : string := NilZero.string_of_int (Z.to_int n).

(** [strings.Split(s, sep)] for a separator of one byte, which is how
    the handler calls it: the pieces of [s] between the occurrences of
    [sep], empty pieces included, so that a string with [n] separators
    has [n + 1] pieces. *)
Fixpoint Split (s : string) (sep : ascii) : list string :=
  match s with
  | EmptyString => [EmptyString]
  | String c s' =>
      if Ascii.eqb c sep then EmptyString :: Split s' sep
      else match Split s' sep with
           | p :: ps => String c p :: ps
           | [] => [String c EmptyString]
           end
  end.

(** Number of occurrences of a byte ([strings.Count] for one byte). *)
Fixpoint Count (s : string) (c : ascii) : nat :=
  match s with
  | EmptyString => O
  | String a s' => (if Ascii.eqb a c then 1 else 0)%nat + Count s' c
  end.

(** [aws.StringValue]: the string behind a [*string], the empty string
    for [nil]. *)
Definition StringValue (p : option string) : string :=
  match p with
  | Some s => s
  | None => ""
  end.

End Go.
Export Go.

(** ** URLs

    [net/url] is Go's library, not this repository's code.  A [*url.URL]
    is held as what the handler reads of it: [Hostname()], the [Path]
    field, [Query()] and the text [%v] prints ([String()]). *)

Module url.

(** [url.Values] is [map[string][]string]. *)
Abbreviation Values := (gmap string (list string)).

(** [Values.Get]: the first value of the key, the empty string when the
    key is absent or has no value. *)
Definition Get (v : Values) (key : string) : string :=
  match v !! key with
  | Some (x :: _) => x
  | _ => ""
  end.

Record URL : Type := {
  Hostname : string;
  Path : string;
  Query : Values;
  String_ : string
}.

End url.

(** ** The resolver *)

Definition slash : ascii := "/"%char.

Definition extractRepoName (u : url.URL) : result string :=
  if String.eqb (url.Hostname u) "github.com" then
    let p := Split (url.Path u) slash in
    if (length p <? 3)%nat then Err (errorString "too few path components")
    else Ok (nth 1 p "" +:+ "/" +:+ nth 2 p "")
  else if String.eqb (url.Hostname u) "eu-west-1.console.aws.amazon.com" then
    if negb (String.eqb (url.Path u) "/codesuite/settings/connections/redirect") then
      Err (errorString ("unexpected URL path: " +:+ url.Path u))
    else
      let repo := url.Get (url.Query u) "FullRepositoryId" in
      if String.eqb repo "" then Err (errorString "missing FullRepositoryId URL param")
      else Ok repo
  else Err (errorString ("unknown hostname " +:+ url.Hostname u)).

(** ** The handler's types *)

Record event : Type := {
  ExecutionID : string;
  GithubToken : string;
  Pipeline : string
}.

Record ghReqPayload : Type := {
  State : string;
  TargetURL : string;
  Description : string;
  Context : string
}.

(** [unicode/utf8], as far as [encoding/json] needs it: where in a
    string a well-formed UTF-8 sequence starts. *)
Module utf8.

Definition byte (c : ascii) : N := N_of_ascii c.

Definition between (lo hi : N) (c : ascii) : bool :=
  ((lo <=? byte c) && (byte c <=? hi))%N.

Definition continuation (c : ascii) : bool := between 0x80 0xBF c.

(** The second byte of a sequence of three or four: its range is
    narrower after 0xE0, 0xED, 0xF0 and 0xF4 (no overlong form, no
    surrogate, nothing above U+10FFFF). *)
Definition second (first c : ascii) : bool :=
  between
    (if (byte first =? 0xE0)%N then 0xA0 else if (byte first =? 0xF0)%N then 0x90 else 0x80)
    (if (byte first =? 0xED)%N then 0x9F else if (byte first =? 0xF4)%N then 0x8F else 0xBF)
    c.

(** The size [utf8.DecodeRuneInString] returns for a well-formed
    sequence at the start of [s]; [0] when [s] is empty or starts with
    a byte that begins none (where the library returns [RuneError]). *)
Definition DecodeSize (s : string) : nat :=
  match s with
  | EmptyString => 0
  | String a s1 =>
      if (byte a <? 0x80)%N then 1
      else if between 0xC2 0xDF a then
        match s1 with
        | String b _ => if continuation b then 2 else 0
        | _ => 0
        end
      else if between 0xE0 0xEF a then
        match s1 with
        | String b (String c _) => if second a b && continuation c then 3 else 0
        | _ => 0
        end
      else if between 0xF0 0xF4 a then
        match s1 with
        | String b (String c (String d _)) =>
            if second a b && continuation c && continuation d then 4 else 0
        | _ => 0
        end
      else 0
  end%nat.

(** [utf8.ValidString], with [pending] bytes of the current sequence
    still to pass. *)
Fixpoint ValidFrom (pending : nat) (s : string) : bool :=
  match s with
  | EmptyString => match pending with O => true | S _ => false end
  | String _ s' =>
      match pending with
      | S k => ValidFrom k s'
      | O =>
          match DecodeSize s with
          | O => false
          | S k => ValidFrom k s'
          end
      end
  end.

Definition ValidString (s : string) : bool := ValidFrom 0 s.

End utf8.

(** [encoding/json] on a struct of strings: every field is written under
    the name of its [json] tag, in declaration order, except a field
    tagged [omitempty] whose value is empty.  The document is kept as a
    tree.  A member's value is the string the document denotes: the
    field's bytes, with every byte that begins no well-formed UTF-8
    sequence written as U+FFFD, as the encoder does.  The other escapes
    and the final newline do not change what the document denotes.
    Encoding a struct of strings returns no error, so the handler's test
    of [Encode]'s error has no branch here. *)
Module json.

#[warnings="-register-all"]
Inductive value : Type :=
| JString (s : string)
| JObject (members : list (string * value)).

Record tag : Type := { name : string; omitempty : bool }.

(** U+FFFD in UTF-8. *)
Definition replacement : string :=
  String (ascii_of_N 0xEF) (String (ascii_of_N 0xBF) (String (ascii_of_N 0xBD) EmptyString)).

(** The encoder's pass over a string: a well-formed sequence is copied,
    a byte that begins none becomes U+FFFD and the pass goes on with the
    next byte.  [pending] counts the bytes of the current sequence still
    to copy. *)
Fixpoint coerce (pending : nat) (s : string) : string :=
  match s with
  | EmptyString => EmptyString
  | String a s' =>
      match pending with
      | S k => String a (coerce k s')
      | O =>
          match utf8.DecodeSize s with
          | O => replacement +:+ coerce 0 s'
          | S k => String a (coerce k s')
          end
      end
  end.

Definition toValidUTF8 (s : string) : string := coerce 0 s.

Definition Marshal (fields : list (tag * string)) : value :=
  JObject
    (map (fun f => (name (fst f), JString (toValidUTF8 (snd f))))
       (List.filter (fun f => negb (omitempty (fst f) && String.eqb (snd f) "")) fields)).

(** The value of a member of an object, [None] when the member is
    absent or the value is no object. *)
Fixpoint assoc (k : string) (ms : list (string * value)) : option value :=
  match ms with
  | [] => None
  | (k', v) :: ms' => if String.eqb k' k then Some v else assoc k ms'
  end.

Definition member (k : string) (v : value) : option value :=
  match v with
  | JObject ms => assoc k ms
  | JString _ => None
  end.

End json.

(** The struct tags of [ghReqPayload]: none has [omitempty]. *)
Definition ghReqPayload_fields (p : ghReqPayload) : list (json.tag * string) :=
  [ ({| json.name := "state"; json.omitempty := false |}, State p);
    ({| json.name := "target_url"; json.omitempty := false |}, TargetURL p);
    ({| json.name := "description"; json.omitempty := false |}, Description p);
    ({| json.name := "context"; json.omitempty := false |}, Context p) ].

(** The CodePipeline SDK's types, with the fields the handler reads.
    The SDK's string fields are [*string], read through
    [aws.StringValue].  The handler dereferences [res.PipelineExecution]
    and the elements of [ArtifactRevisions] without a test: they are
    held as values, not as pointers that may be [nil]. *)
Module codepipeline.

Record GetPipelineExecutionInput : Type := {
  PipelineExecutionId : option string;
  PipelineName : option string
}.

Record ArtifactRevision : Type := {
  Name : option string;
  RevisionId : option string;
  RevisionUrl : option string
}.

Record PipelineExecution_ : Type := {
  ArtifactRevisions : list ArtifactRevision;
  Status : option string
}.

Record GetPipelineExecutionOutput : Type := {
  PipelineExecution : PipelineExecution_
}.

End codepipeline.

(** [net/http]: a request as the handler builds it, a response as the
    handler reads it ([Body] is what [ioutil.ReadAll] returns). *)
Module http.

(** [http.Header] is [map[string][]string]; [Set] replaces the values of
    a key.  The three keys the handler sets are in canonical form
    already. *)
Abbreviation Header := (gmap string (list string)).

Definition Set_ (h : Header) (key value : string) : Header :=
  <[key := [value]]> h.

Record Request : Type := {
  Method : string;
  URL : url.URL;
  Header_ : Header;
  Body : json.value
}.

Record Response : Type := {
  StatusCode : Z;
  ResBody : string
}.

End http.

(** ** The surroundings

    What the handler calls outside this repository: [url.Parse], the
    CodePipeline client's [GetPipelineExecution], and the HTTP client's
    [Do].  Building the session and the client sends nothing; an
    invocation starts with a client it can use. *)
Record Env : Type := {
  url_Parse : string -> result url.URL;
  GetPipelineExecution :
    codepipeline.GetPipelineExecutionInput ->
    result codepipeline.GetPipelineExecutionOutput;
  client_Do : http.Request -> result http.Response
}.

(** What an invocation does that is visible outside, in order. *)
Inductive effect : Type :=
| CallGetPipelineExecution (input : codepipeline.GetPipelineExecutionInput)
| CallDo (req : http.Request)
| LogPrintf (msg : string).

(** ** A monad for early return and the trace *)

Definition M (A : Type) : Type := list effect -> list effect * result A.

Global Instance M_ret : MRet M := fun A a tr => (tr, Ok a).

Global Instance M_bind : MBind M := fun A B f m tr =>
  match m tr with
  | (tr', Ok a) => f a tr'
  | (tr', Err e) => (tr', Err e)
  end.

(** [return err] *)
Definition fail {A : Type} (e : error) : M A := fun tr => (tr, Err e).

(** An effect, and what the surroundings answer to it. *)
Definition perform {A : Type} (ef : effect) (r : result A) : M A :=
  fun tr => (tr ++ [ef], r).

(** A call of the library without effect. *)
Definition lift {A : Type} (r : result A) : M A := fun tr => (tr, r).

(** The invocation as the platform sees it: the trace, and the returned
    [error] ([None] is [nil]). *)
Definition run (m : M unit) : list effect * option error :=
  match m [] with
  | (tr, Ok _) => (tr, None)
  | (tr, Err e) => (tr, Some e)
  end.

(** ** The handler *)

Definition newline : string := String (ascii_of_nat 10) EmptyString.

(** The [switch] on the execution's status. *)
Definition ghStatusOf (status : string) : string :=
  if String.eqb status "InProgress" then "pending"
  else if String.eqb status "Succeeded" then "success"
  else "failure".

(** [http.NewRequest(method, url, body)] parses [url] with [url.Parse]
    and returns its error; the method ["POST"] is valid. *)
Definition NewRequest (env : Env) (method ghURL : string) (b : json.value)
  : result http.Request :=
  match url_Parse env ghURL with
  | Err e => Err e
  | Ok u => Ok {| http.Method := method; http.URL := u;
                  http.Header_ := ∅; http.Body := b |}
  end.

Definition setHeader (req : http.Request) (key value : string) : http.Request :=
  {| http.Method := http.Method req; http.URL := http.URL req;
     http.Header_ := http.Set_ (http.Header_ req) key value;
     http.Body := http.Body req |}.

Definition HandleLambdaEvent (env : Env) (ev : event) : M unit :=
  if String.eqb (ExecutionID ev) "" then
    fail (errorString "missing event param execution-id")
  else if String.eqb (GithubToken ev) "" then
    fail (errorString "missing event param github-token")
  else if String.eqb (Pipeline ev) "" then
    fail (errorString "missing event param pipeline")
  else
    let input :=
      {| codepipeline.PipelineExecutionId := Some (ExecutionID ev);
         codepipeline.PipelineName := Some (Pipeline ev) |} in
    res ← perform (CallGetPipelineExecution input) (GetPipelineExecution env input);
    let pe := codepipeline.PipelineExecution res in
    match
      find (fun a => String.eqb (StringValue (codepipeline.Name a)) "SourceArtifact")
        (codepipeline.ArtifactRevisions pe)
    with
    | None => fail (errorString "missing SourceArtifact")
    | Some sourceArti =>
        let rev := StringValue (codepipeline.RevisionId sourceArti) in
        u ← lift (url_Parse env (StringValue (codepipeline.RevisionUrl sourceArti)));
        _ ← perform (LogPrintf ("revision ID: " +:+ rev +:+ " URL: "
                                   +:+ url.String_ u +:+ newline)) (Ok tt);
        let status := StringValue (codepipeline.Status pe) in
        let ghStatus := ghStatusOf status in
        repo ← match extractRepoName u with
               | Ok repo => mret repo
               | Err err =>
                   fail (wrapError
                           ("failed to extract repo name from artifact url "
                              +:+ url.String_ u +:+ ": " +:+ Error err) err)
               end;
        let deepLink :=
          "https://" +:+ "eu-west-1"
            +:+ ".console.aws.amazon.com/codesuite/codepipeline/pipelines/"
            +:+ Pipeline ev +:+ "/executions/" +:+ ExecutionID ev in
        let ghURL :=
          "https://api.github.com/repos/" +:+ repo +:+ "/statuses/" +:+ rev in
        _ ← perform (LogPrintf ("Setting status for repo=" +:+ repo +:+ ", commit="
                                   +:+ rev +:+ " to " +:+ ghStatus +:+ newline)) (Ok tt);
        let b :=
          json.Marshal
            (ghReqPayload_fields
               {| State := ghStatus; TargetURL := deepLink;
                  Description := ""; Context := "continuous-integration/codepipeline" |}) in
        ghReq ← lift (NewRequest env "POST" ghURL b);
        let ghReq := setHeader ghReq "Accept" "application/json" in
        let ghReq := setHeader ghReq "Authorization" ("token " +:+ GithubToken ev) in
        let ghReq := setHeader ghReq "Content-Type" "application/json; charset=utf-8" in
        ghRes ← perform (CallDo ghReq) (client_Do env ghReq);
        if negb (http.StatusCode ghRes =? 201) then
          fail (errorString ("unexpected response from GitHub: "
                               +:+ itoa (http.StatusCode ghRes)
                               +:+ " body: " +:+ http.ResBody ghRes))
        else mret tt
    end.

(** ** What the specification calls a RepositoryIdentifier

    "Contains exactly one "/" separating two non-empty segments." *)
Definition isRepositoryIdentifier (r : string) : bool :=
  match Split r slash with
  | [owner; repo] => negb (String.eqb owner "") && negb (String.eqb repo "")
  | _ => false
  end.

(** The pieces of the path after the leading one (which is empty for a
    path that starts with "/"). *)
Definition segmentsAfterHost (u : url.URL) : nat :=
  (length (Split (url.Path u) slash) - 1)%nat.

(** [s] has [sub] inside. *)
Definition Contains (s sub : string) : Prop :=
  exists pre post, s = pre +:+ sub +:+ post.

(** The two constants of the connection-redirect branch. *)
Definition redirectPath : string := "/codesuite/settings/connections/redirect".
Definition consoleHost : string := "eu-west-1.console.aws.amazon.com".

(** ** Names for the handler's steps *)

(** The lookup the handler asks for. *)
Definition lookupInput (ev : event) : codepipeline.GetPipelineExecutionInput :=
  {| codepipeline.PipelineExecutionId := Some (ExecutionID ev);
     codepipeline.PipelineName := Some (Pipeline ev) |}.

(** The test of the loop over the artifact revisions. *)
Definition isSourceArtifact (a : codepipeline.ArtifactRevision) : bool :=
  String.eqb (StringValue (codepipeline.Name a)) "SourceArtifact".

(** The payload the handler encodes, for an event and a snapshot. *)
Definition statusReport (ev : event)
    (res : codepipeline.GetPipelineExecutionOutput) : ghReqPayload :=
  {| State := ghStatusOf (StringValue (codepipeline.Status (codepipeline.PipelineExecution res)));
     TargetURL :=
       "https://eu-west-1.console.aws.amazon.com/codesuite/codepipeline/pipelines/"
         +:+ Pipeline ev +:+ "/executions/" +:+ ExecutionID ev;
     Description := "";
     Context := "continuous-integration/codepipeline" |}.

(** What the handler returns for the answer of [client.Do]. *)
Definition notifyOutcome (r : result http.Response) : option error :=
  match r with
  | Err e => Some e
  | Ok ghRes =>
      if http.StatusCode ghRes =? 201 then None
      else Some (errorString ("unexpected response from GitHub: "
                                +:+ itoa (http.StatusCode ghRes)
                                +:+ " body: " +:+ http.ResBody ghRes))
  end.

(** The fields of the event, under the keys of their [json] tags. *)
Definition eventFields (ev : event) : list (string * string) :=
  [ ("execution-id", ExecutionID ev);
    ("github-token", GithubToken ev);
    ("pipeline", Pipeline ev) ].

(** An event that passes the three checks. *)
Definition validEvent (ev : event) : Prop :=
  ExecutionID ev <> "" /\ GithubToken ev <> "" /\ Pipeline ev <> "".

(** The surroundings that answer as [env] does, with the snapshot's
    artifact revisions replaced. *)
Definition withArtifacts (env : Env) (arts : list codepipeline.ArtifactRevision) : Env :=
  {| url_Parse := url_Parse env;
     GetPipelineExecution := fun input =>
       match GetPipelineExecution env input with
       | Ok res =>
           Ok {| codepipeline.PipelineExecution :=
                   {| codepipeline.ArtifactRevisions := arts;
                      codepipeline.Status :=
                        codepipeline.Status (codepipeline.PipelineExecution res) |} |}
       | Err e => Err e
       end;
     client_Do := client_Do env |}.

(** ** Example data *)

Definition ex_direct : url.URL :=
  {| url.Hostname := "github.com";
     url.Path := "/acme/widgets/commit/abc123";
     url.Query := ∅;
     url.String_ := "https://github.com/acme/widgets/commit/abc123" |}.

(** A connection-redirect locator whose parameter is [repo]. *)
Definition ex_redirect (repo : string) : url.URL :=
  {| url.Hostname := "eu-west-1.console.aws.amazon.com";
     url.Path := "/codesuite/settings/connections/redirect";
     url.Query := {[ "FullRepositoryId" := [repo] ]};
     url.String_ :=
       "https://eu-west-1.console.aws.amazon.com/codesuite/settings/connections/redirect?FullRepositoryId="
         +:+ repo |}.

Definition ex_owner_only : url.URL :=
  {| url.Hostname := "github.com";
     url.Path := "/acme";
     url.Query := ∅;
     url.String_ := "https://github.com/acme" |}.

Definition ex_gitlab : url.URL :=
  {| url.Hostname := "gitlab.com";
     url.Path := "/acme/widgets";
     url.Query := ∅;
     url.String_ := "https://gitlab.com/acme/widgets" |}.

Definition ex_wrong_path : url.URL :=
  {| url.Hostname := "eu-west-1.console.aws.amazon.com";
     url.Path := "/codesuite/settings/connections";
     url.Query := {[ "FullRepositoryId" := ["acme/widgets"] ]};
     url.String_ :=
       "https://eu-west-1.console.aws.amazon.com/codesuite/settings/connections?FullRepositoryId=acme/widgets" |}.

Definition ex_no_param : url.URL :=
  {| url.Hostname := "eu-west-1.console.aws.amazon.com";
     url.Path := "/codesuite/settings/connections/redirect";
     url.Query := ∅;
     url.String_ :=
       "https://eu-west-1.console.aws.amazon.com/codesuite/settings/connections/redirect" |}.

(** A source-host locator with an empty repository piece. *)
Definition ex_empty_repo : url.URL :=
  {| url.Hostname := "github.com";
     url.Path := "/acme//";
     url.Query := ∅;
     url.String_ := "https://github.com/acme//" |}.

Definition ev1 : event :=
  {| ExecutionID := "exec1"; GithubToken := "tok"; Pipeline := "pipe1" |}.

Definition ev_no_token : event :=
  {| ExecutionID := "exec1"; GithubToken := ""; Pipeline := "pipe1" |}.

Definition sourceRev : codepipeline.ArtifactRevision :=
  {| codepipeline.Name := Some "SourceArtifact";
     codepipeline.RevisionId := Some "abc123";
     codepipeline.RevisionUrl := Some "https://github.com/acme/widgets/commit/abc123" |}.

Definition otherSourceRev : codepipeline.ArtifactRevision :=
  {| codepipeline.Name := Some "SourceArtifact";
     codepipeline.RevisionId := Some "fff999";
     codepipeline.RevisionUrl := Some "https://github.com/acme/gadgets/commit/fff999" |}.

Definition buildRev : codepipeline.ArtifactRevision :=
  {| codepipeline.Name := Some "BuildArtifact";
     codepipeline.RevisionId := Some "0001";
     codepipeline.RevisionUrl := None |}.

(** Surroundings for the examples: the parser answers for the two
    locators of the scenario, the lookup returns the given revisions
    with status ["Succeeded"], GitHub answers with the given code. *)
Definition exampleEnv (arts : list codepipeline.ArtifactRevision) (code : Z) : Env :=
  {| url_Parse := fun s =>
       if String.eqb s "https://github.com/acme/widgets/commit/abc123" then Ok ex_direct
       else if String.eqb s "https://api.github.com/repos/acme/widgets/statuses/abc123" then
         Ok {| url.Hostname := "api.github.com";
               url.Path := "/repos/acme/widgets/statuses/abc123";
               url.Query := ∅; url.String_ := s |}
       else Err (errorString "parse: not a locator of the example");
     GetPipelineExecution := fun _ =>
       Ok {| codepipeline.PipelineExecution :=
               {| codepipeline.ArtifactRevisions := arts;
                  codepipeline.Status := Some "Succeeded" |} |};
     client_Do := fun _ =>
       Ok {| http.StatusCode := code; http.ResBody := "Validation Failed" |} |}.

Definition exampleRequest : http.Request :=
  {| http.Method := "POST";
     http.URL := {| url.Hostname := "api.github.com";
                    url.Path := "/repos/acme/widgets/statuses/abc123";
                    url.Query := ∅;
                    url.String_ := "https://api.github.com/repos/acme/widgets/statuses/abc123" |};
     http.Header_ :=
       {[ "Accept" := ["application/json"];
          "Authorization" := ["token tok"];
          "Content-Type" := ["application/json; charset=utf-8"] ]};
     http.Body :=
       json.JObject
         [ ("state", json.JString "success");
           ("target_url",
            json.JString
              "https://eu-west-1.console.aws.amazon.com/codesuite/codepipeline/pipelines/pipe1/executions/exec1");
           ("description", json.JString "");
           ("context", json.JString "continuous-integration/codepipeline") ] |}.

(** ** The invocation, step by step

    The handler's effects and its outcome written out as one case
    analysis over what the surroundings answer; [run_HandleLambdaEvent]
    shows it is what [HandleLambdaEvent] does. *)

(** The first log line. *)
Definition revisionLog (a : codepipeline.ArtifactRevision) (u : url.URL) : effect :=
  LogPrintf ("revision ID: " +:+ StringValue (codepipeline.RevisionId a)
               +:+ " URL: " +:+ url.String_ u +:+ newline).

(** The second log line. *)
Definition statusLog (repo : string) (a : codepipeline.ArtifactRevision)
    (res : codepipeline.GetPipelineExecutionOutput) : effect :=
  LogPrintf ("Setting status for repo=" +:+ repo +:+ ", commit="
               +:+ StringValue (codepipeline.RevisionId a) +:+ " to "
               +:+ ghStatusOf
                     (StringValue (codepipeline.Status (codepipeline.PipelineExecution res)))
               +:+ newline).

(** The address of the POST. *)
Definition statusURL (repo : string) (a : codepipeline.ArtifactRevision) : string :=
  "https://api.github.com/repos/" +:+ repo +:+ "/statuses/"
    +:+ StringValue (codepipeline.RevisionId a).

(** The request after the three [Header.Set]. *)
Definition postedRequest (ev : event)
    (res : codepipeline.GetPipelineExecutionOutput) (gu : url.URL) : http.Request :=
  setHeader
    (setHeader
       (setHeader
          {| http.Method := "POST"; http.URL := gu; http.Header_ := ∅;
             http.Body := json.Marshal (ghReqPayload_fields (statusReport ev res)) |}
          "Accept" "application/json")
       "Authorization" ("token " +:+ GithubToken ev))
    "Content-Type" "application/json; charset=utf-8".

Definition invocation (env : Env) (ev : event) : list effect * option error :=
  if String.eqb (ExecutionID ev) "" then
    ([], Some (errorString "missing event param execution-id"))
  else if String.eqb (GithubToken ev) "" then
    ([], Some (errorString "missing event param github-token"))
  else if String.eqb (Pipeline ev) "" then
    ([], Some (errorString "missing event param pipeline"))
  else
    let lookup := CallGetPipelineExecution (lookupInput ev) in
    match GetPipelineExecution env (lookupInput ev) with
    | Err e => ([lookup], Some e)
    | Ok res =>
        match
          find isSourceArtifact
            (codepipeline.ArtifactRevisions (codepipeline.PipelineExecution res))
        with
        | None => ([lookup], Some (errorString "missing SourceArtifact"))
        | Some a =>
            match url_Parse env (StringValue (codepipeline.RevisionUrl a)) with
            | Err e => ([lookup], Some e)
            | Ok u =>
                match extractRepoName u with
                | Err err =>
                    ([lookup; revisionLog a u],
                     Some (wrapError
                             ("failed to extract repo name from artifact url "
                                +:+ url.String_ u +:+ ": " +:+ Error err) err))
                | Ok repo =>
                    match url_Parse env (statusURL repo a) with
                    | Err e => ([lookup; revisionLog a u; statusLog repo a res], Some e)
                    | Ok gu =>
                        ([lookup; revisionLog a u; statusLog repo a res;
                          CallDo (postedRequest ev res gu)],
                         notifyOutcome (client_Do env (postedRequest ev res gu)))
                    end
                end
            end
        end
    end.

(** What follows the choice of the source revision [a]: the parse of
    its locator, the resolver, the two log lines, and the POST to the
    address made of the resolved repository and the identifier of [a]. *)
Definition afterSourceArtifact (env : Env) (ev : event)
    (res : codepipeline.GetPipelineExecutionOutput)
    (a : codepipeline.ArtifactRevision) : list effect * option error :=
  let lookup := CallGetPipelineExecution (lookupInput ev) in
  match url_Parse env (StringValue (codepipeline.RevisionUrl a)) with
  | Err e => ([lookup], Some e)
  | Ok u =>
      match extractRepoName u with
      | Err err =>
          ([lookup; revisionLog a u],
           Some (wrapError
                   ("failed to extract repo name from artifact url "
                      +:+ url.String_ u +:+ ": " +:+ Error err) err))
      | Ok repo =>
          match url_Parse env (statusURL repo a) with
          | Err e => ([lookup; revisionLog a u; statusLog repo a res], Some e)
          | Ok gu =>
              ([lookup; revisionLog a u; statusLog repo a res;
                CallDo (postedRequest ev res gu)],
               notifyOutcome (client_Do env (postedRequest ev res gu)))
          end
      end
  end.

(** The kinds of effect. *)
Definition isLookup (ef : effect) : bool :=
  match ef with CallGetPipelineExecution _ => true | _ => false end.

Definition isPost (ef : effect) : bool :=
  match ef with CallDo _ => true | _ => false end.

(** An effect with the [Authorization] header of a request taken out. *)
Definition withoutAuthorization (ef : effect) : effect :=
  match ef with
  | CallDo req =>
      CallDo {| http.Method := http.Method req; http.URL := http.URL req;
                http.Header_ := delete "Authorization" (http.Header_ req);
                http.Body := http.Body req |}
  | _ => ef
  end.

(** The event with another token. *)
Definition withToken (ev : event) (token : string) : event :=
  {| ExecutionID := ExecutionID ev; GithubToken := token; Pipeline := Pipeline ev |}.

(** A locator with a longer path, and any query and text. *)
Definition deeper (u : url.URL) (rest : string) (q : url.Values) (text : string) : url.URL :=
  {| url.Hostname := url.Hostname u;
     url.Path := url.Path u +:+ "/" +:+ rest;
     url.Query := q;
     url.String_ := text |}.

(** [strings.Join] with a separator of one byte. *)
Fixpoint Join (l : list string) (sep : ascii) : string :=
  match l with
  | [] => ""
  | [s] => s
  | s :: l' => s +:+ String sep (Join l' sep)
  end.

(** ** More example data *)

(** The snapshot the example surroundings return. *)
Definition exampleSnapshot (arts : list codepipeline.ArtifactRevision)
  : codepipeline.GetPipelineExecutionOutput :=
  {| codepipeline.PipelineExecution :=
       {| codepipeline.ArtifactRevisions := arts;
          codepipeline.Status := Some "Succeeded" |} |}.

(** An event whose pipeline name ends in the byte 0xFF, which begins
    no UTF-8 sequence. *)
Definition ev_odd_pipeline : event :=
  {| ExecutionID := "exec1"; GithubToken := "tok";
     Pipeline := String "p" (String (ascii_of_N 0xFF) EmptyString) |}.

(** The lookup fails. *)
Definition envLookupFails : Env :=
  {| url_Parse := url_Parse (exampleEnv [sourceRev] 201);
     GetPipelineExecution := fun _ =>
       Err (errorString "PipelineExecutionNotFoundException");
     client_Do := client_Do (exampleEnv [sourceRev] 201) |}.

(** The POST gets no answer. *)
Definition envDoFails : Env :=
  {| url_Parse := url_Parse (exampleEnv [sourceRev] 201);
     GetPipelineExecution := GetPipelineExecution (exampleEnv [sourceRev] 201);
     client_Do := fun _ => Err (errorString "dial tcp: connection refused") |}.

(** A source revision whose locator the example parser refuses. *)
Definition unparsableRev : codepipeline.ArtifactRevision :=
  {| codepipeline.Name := Some "SourceArtifact";
     codepipeline.RevisionId := Some "abc123";
     codepipeline.RevisionUrl := Some "https://github.com/%zz" |}.

(** A source revision whose identifier makes an address the example
    parser refuses. *)
Definition oddIdRev : codepipeline.ArtifactRevision :=
  {| codepipeline.Name := Some "SourceArtifact";
     codepipeline.RevisionId := Some "%zz";
     codepipeline.RevisionUrl := Some "https://github.com/acme/widgets/commit/abc123" |}.

(** The parser answers with a locator of an unknown host. *)
Definition envGitlab : Env :=
  {| url_Parse := fun _ => Ok ex_gitlab;
     GetPipelineExecution := GetPipelineExecution (exampleEnv [sourceRev] 201);
     client_Do := client_Do (exampleEnv [sourceRev] 201) |}.

(** ** Proof automation *)

(** A trace without a POST: closes the branches that return early. *)
Ltac no_CallDo H Hin :=
  inversion H; subst; clear H;
  repeat (apply in_app_or in Hin; destruct Hin as [Hin|Hin]);
  simpl in Hin; intuition discriminate.

(** Case analysis over the steps of a valid event's invocation. *)
Ltac invocation_cases env ev :=
  let res := fresh "res" in
  let a := fresh "a" in
  let u := fresh "u" in
  let repo := fresh "repo" in
  let gu := fresh "gu" in
  destruct (GetPipelineExecution env (lookupInput ev)) as [res|?e] eqn:?Hget;
  [ destruct (find isSourceArtifact
                (codepipeline.ArtifactRevisions (codepipeline.PipelineExecution res)))
      as [a|] eqn:?Hfind;
    [ destruct (url_Parse env (StringValue (codepipeline.RevisionUrl a)))
        as [u|?e] eqn:?Hparse;
      [ destruct (extractRepoName u) as [repo|?err] eqn:?Hrepo;
        [ destruct (url_Parse env (statusURL repo a)) as [gu|?e] eqn:?Hgu | ]
      | ]
    | ]
  | ].

(** The trace of one case against a request said to be in it. *)
Ltac no_post Hrun Hin :=
  inversion Hrun; subst; clear Hrun; simpl in Hin;
  repeat (destruct Hin as [Hin|Hin]; [try discriminate Hin|]);
  try contradiction;
  try (injection Hin as Hin).

(** ** Examples *)

Example extractRepoName_direct : extractRepoName ex_direct = Ok "acme/widgets".
Proof. reflexivity. Qed.

Example extractRepoName_redirect :
  extractRepoName (ex_redirect "acme/widgets") = Ok "acme/widgets".
Proof. reflexivity. Qed.

Example Split_empty_pieces : Split "/a//b/" slash = [""; "a"; ""; "b"; ""].
Proof. reflexivity. Qed.

Example itoa_422 : itoa 422 = "422".
Proof. reflexivity. Qed.

(** A trailing "/" makes a piece of its own: the path "/acme/" has two
    pieces after the leading one, and resolves. *)
Example trailing_slash_is_a_piece :
  Split "/acme/" slash = [""; "acme"; ""] /\
  extractRepoName
    {| url.Hostname := "github.com"; url.Path := "/acme/"; url.Query := ∅;
       url.String_ := "https://github.com/acme/" |} = Ok "acme/".
Proof. split; reflexivity. Qed.

(** ** Strings *)

Section Strings.

Variable c : ascii.

Lemma Split_length (s : string) : length (Split s c) = S (Count s c).
Proof.
  induction s as [|a s IH]; simpl; [reflexivity|].
  destruct (Ascii.eqb a c); simpl.
  - now rewrite IH.
  - destruct (Split s c) as [|p ps]; simpl in *; [discriminate IH | exact IH].
Qed.

Lemma Split_no_sep (s : string) : Count s c = O -> Split s c = [s].
Proof.
  induction s as [|a s IH]; simpl; [reflexivity|].
  destruct (Ascii.eqb a c); simpl; [discriminate|].
  intros H. now rewrite (IH H).
Qed.

Lemma Split_app_sep (s t : string) :
  Count s c = O -> Split (s +:+ String c t) c = s :: Split t c.
Proof.
  induction s as [|a s IH]; simpl.
  - intros _. now rewrite Ascii.eqb_refl.
  - destruct (Ascii.eqb a c); simpl; [discriminate|].
    intros H. now rewrite (IH H).
Qed.

Lemma Split_pieces (s : string) : Forall (fun p => Count p c = O) (Split s c).
Proof.
  induction s as [|a s IH]; simpl.
  - repeat constructor.
  - destruct (Ascii.eqb a c) eqn:E.
    + constructor; [reflexivity | exact IH].
    + destruct (Split s c) as [|p ps].
      * constructor; [simpl; now rewrite E | constructor].
      * inversion IH as [|? ? Hp Hps]; subst.
        constructor; [simpl; now rewrite E | exact Hps].
Qed.

Lemma Count_app (s t : string) : Count (s +:+ t) c = (Count s c + Count t c)%nat.
Proof.
  induction s as [|a s IH]; simpl; [reflexivity|].
  rewrite IH. lia.
Qed.

End Strings.

Lemma nth_Count (l : list string) (c : ascii) (i : nat) :
  Forall (fun p => Count p c = O) l -> Count (nth i l "") c = O.
Proof.
  intros H. revert i. induction H as [|p ps Hp _ IH]; intros [|i]; simpl; auto.
Qed.

Lemma append_cons (a : ascii) (s t : string) :
  String a s +:+ t = String a (s +:+ t).
Proof. reflexivity. Qed.

Lemma append_empty_r (s : string) : s +:+ "" = s.
Proof.
  induction s as [|a s IH]; [reflexivity|].
  now rewrite append_cons, IH.
Qed.

Lemma append_assoc (s t r : string) : (s +:+ t) +:+ r = s +:+ t +:+ r.
Proof.
  induction s as [|a s IH]; [reflexivity|].
  now rewrite !append_cons, IH.
Qed.

Lemma Contains_middle (a b c : string) : Contains (a +:+ b +:+ c) b.
Proof. now exists a, c. Qed.

Lemma Contains_end (a b : string) : Contains (a +:+ b) b.
Proof. exists a, "". now rewrite append_empty_r. Qed.

Lemma eqb_neq_false (s t : string) : s <> t -> String.eqb s t = false.
Proof. intros H. now apply String.eqb_neq. Qed.

Lemma Get_empty (v : url.Values) (k : string) :
  url.Get v k = "" <->
  v !! k = None \/ v !! k = Some [] \/ exists vs, v !! k = Some ("" :: vs).
Proof.
  unfold url.Get. destruct (v !! k) as [[|x vs]|]; split; intros H; auto.
  - subst x. right. right. now exists vs.
  - destruct H as [H|[H|[vs' H]]]; try discriminate. now inversion H.
Qed.

Lemma Split_two (a b : string) :
  Count a slash = O -> Count b slash = O ->
  Split (a +:+ "/" +:+ b) slash = [a; b].
Proof.
  intros Ha Hb. change ("/" +:+ b) with (String slash b).
  now rewrite (Split_app_sep slash a b Ha), (Split_no_sep slash b Hb).
Qed.

Lemma isRepositoryIdentifier_join (a b : string) :
  Count a slash = O -> Count b slash = O ->
  isRepositoryIdentifier (a +:+ "/" +:+ b) = true <-> a <> "" /\ b <> "".
Proof.
  intros Ha Hb. unfold isRepositoryIdentifier. rewrite (Split_two a b Ha Hb).
  rewrite andb_true_iff, !negb_true_iff, !String.eqb_neq. reflexivity.
Qed.

(** ** The resolver: properties *)

(** C1. On the source host, a path of at least three pieces resolves to
    piece 1, "/", piece 2; so a locator
    [https://github.com/{owner}/{repo}/...] resolves to [{owner}/{repo}]. *)
Theorem extractRepoName_source_host (u : url.URL) :
  url.Hostname u = "github.com" ->
  ((3 <= length (Split (url.Path u) slash))%nat ->
   extractRepoName u =
     Ok (nth 1 (Split (url.Path u) slash) "" +:+ "/"
           +:+ nth 2 (Split (url.Path u) slash) "")) /\
  (forall owner repo rest : string,
     Count owner slash = O -> Count repo slash = O ->
     url.Path u = "/" +:+ owner +:+ "/" +:+ repo +:+ "/" +:+ rest ->
     extractRepoName u = Ok (owner +:+ "/" +:+ repo)).
Proof.
  intros Hhost. unfold extractRepoName. rewrite Hhost. simpl String.eqb. cbv iota zeta.
  split.
  - intros Hlen. apply Nat.ltb_ge in Hlen. now rewrite Hlen.
  - intros owner repo rest Ho Hr ->.
    change ("/" +:+ owner +:+ "/" +:+ repo +:+ "/" +:+ rest)
      with ("" +:+ String slash (owner +:+ String slash (repo +:+ String slash rest))).
    rewrite (Split_app_sep slash "" _ eq_refl).
    rewrite (Split_app_sep slash owner _ Ho).
    rewrite (Split_app_sep slash repo _ Hr).
    simpl nth. simpl length.
    destruct (Split rest slash); reflexivity.
Qed.

Lemma extractRepoName_source_host_witness :
  url.Hostname ex_direct = "github.com" /\
  extractRepoName ex_direct = Ok ("acme" +:+ "/" +:+ "widgets").
Proof.
  split; [reflexivity|].
  apply (proj2 (extractRepoName_source_host ex_direct eq_refl)
           "acme" "widgets" "commit/abc123"); reflexivity.
Defined.

(** C4. On the source host, a path with fewer than two pieces after the
    leading one is refused with "too few path components". *)
Theorem extractRepoName_too_few (u : url.URL) :
  url.Hostname u = "github.com" ->
  (segmentsAfterHost u < 2)%nat ->
  extractRepoName u = Err (errorString "too few path components").
Proof.
  intros Hhost Hseg. unfold extractRepoName, segmentsAfterHost in *.
  rewrite Hhost. simpl String.eqb. cbv iota zeta.
  assert (Hlt : (length (Split (url.Path u) slash) <? 3)%nat = true)
    by (apply Nat.ltb_lt; lia).
  now rewrite Hlt.
Qed.

Lemma extractRepoName_too_few_witness :
  url.Hostname ex_owner_only = "github.com" /\
  (segmentsAfterHost ex_owner_only < 2)%nat /\
  extractRepoName ex_owner_only = Err (errorString "too few path components").
Proof.
  split; [reflexivity|]. split; [vm_compute; lia|].
  apply (extractRepoName_too_few ex_owner_only); [reflexivity | vm_compute; lia].
Defined.

(** The pieces after the leading one are as many as the path has "/". *)
Lemma segmentsAfterHost_Count (u : url.URL) :
  segmentsAfterHost u = Count (url.Path u) slash.
Proof. unfold segmentsAfterHost. rewrite Split_length. lia. Qed.

(** C5. On the connection-redirect host with the redirect path, a
    non-empty [FullRepositoryId] is returned as it is. *)
Theorem extractRepoName_redirect_param (u : url.URL) (v : string) :
  url.Hostname u = consoleHost ->
  url.Path u = redirectPath ->
  url.Get (url.Query u) "FullRepositoryId" = v ->
  v <> "" ->
  extractRepoName u = Ok v.
Proof.
  intros Hhost Hpath Hget Hne. unfold extractRepoName.
  rewrite Hhost, Hpath, Hget. simpl. now rewrite (eqb_neq_false v "" Hne).
Qed.

Lemma extractRepoName_redirect_param_witness :
  url.Hostname (ex_redirect "acme/widgets") = consoleHost /\
  url.Path (ex_redirect "acme/widgets") = redirectPath /\
  url.Get (url.Query (ex_redirect "acme/widgets")) "FullRepositoryId" = "acme/widgets" /\
  "acme/widgets" <> "" /\
  extractRepoName (ex_redirect "acme/widgets") = Ok "acme/widgets".
Proof.
  refine (conj eq_refl (conj eq_refl (conj eq_refl (conj _
            (extractRepoName_redirect_param (ex_redirect "acme/widgets")
               "acme/widgets" eq_refl eq_refl eq_refl _)))));
    discriminate.
Defined.

(** C6. The three refusals of the resolver outside the source host, each
    with its own message. *)
Theorem extractRepoName_refusals (u : url.URL) :
  (url.Hostname u = consoleHost -> url.Path u <> redirectPath ->
   extractRepoName u = Err (errorString ("unexpected URL path: " +:+ url.Path u))) /\
  (url.Hostname u = consoleHost -> url.Path u = redirectPath ->
   url.Get (url.Query u) "FullRepositoryId" = "" ->
   extractRepoName u = Err (errorString "missing FullRepositoryId URL param")) /\
  (url.Hostname u <> "github.com" -> url.Hostname u <> consoleHost ->
   extractRepoName u = Err (errorString ("unknown hostname " +:+ url.Hostname u))).
Proof.
  unfold extractRepoName, consoleHost, redirectPath. repeat split.
  - intros Hhost Hpath. rewrite Hhost. simpl.
    now rewrite (eqb_neq_false _ _ Hpath).
  - intros Hhost Hpath Hget. rewrite Hhost, Hpath, Hget. reflexivity.
  - intros Hgh Hcon. now rewrite (eqb_neq_false _ _ Hgh), (eqb_neq_false _ _ Hcon).
Qed.

Lemma extractRepoName_refusals_witness :
  extractRepoName ex_wrong_path =
    Err (errorString "unexpected URL path: /codesuite/settings/connections") /\
  extractRepoName ex_no_param = Err (errorString "missing FullRepositoryId URL param") /\
  extractRepoName ex_gitlab = Err (errorString "unknown hostname gitlab.com").
Proof.
  split; [|split].
  - apply (proj1 (extractRepoName_refusals ex_wrong_path)); [reflexivity | discriminate].
  - apply (proj1 (proj2 (extractRepoName_refusals ex_no_param))); reflexivity.
  - apply (proj2 (proj2 (extractRepoName_refusals ex_gitlab))); discriminate.
Defined.

(** The parameter reads as empty when it is absent, has no value, or has
    the empty string as its first value. *)
Lemma FullRepositoryId_absent (u : url.URL) :
  url.Query u !! "FullRepositoryId" = None ->
  url.Get (url.Query u) "FullRepositoryId" = "".
Proof. intros H. apply Get_empty. now left. Qed.

(** C2, as the specification states it, fails: the redirect branch
    returns a parameter without "/" as it is, and the source-host branch
    returns an empty piece of the path as it is. *)
Lemma extractRepoName_not_always_identifier :
  (extractRepoName (ex_redirect "widgets") = Ok "widgets" /\
   isRepositoryIdentifier "widgets" = false) /\
  (extractRepoName ex_empty_repo = Ok "acme/" /\
   isRepositoryIdentifier "acme/" = false).
Proof. repeat split. Qed.

(** C2, amended.  When the resolver succeeds: on the source host the
    result is piece 1, "/", piece 2 of the path, it has exactly one "/",
    and it is a RepositoryIdentifier exactly when both pieces are not
    empty; on the connection-redirect host the result is the
    [FullRepositoryId] parameter, which is not empty. *)
Theorem extractRepoName_shape (u : url.URL) (r : string) :
  extractRepoName u = Ok r ->
  (url.Hostname u = "github.com" /\
   r = nth 1 (Split (url.Path u) slash) "" +:+ "/"
         +:+ nth 2 (Split (url.Path u) slash) "" /\
   Count r slash = 1%nat /\
   (isRepositoryIdentifier r = true <->
    nth 1 (Split (url.Path u) slash) "" <> "" /\
    nth 2 (Split (url.Path u) slash) "" <> "")) \/
  (url.Hostname u = consoleHost /\
   r = url.Get (url.Query u) "FullRepositoryId" /\
   r <> "").
Proof.
  unfold extractRepoName.
  destruct (String.eqb_spec (url.Hostname u) "github.com") as [Hgh|Hgh].
  - cbv zeta. destruct (length (Split (url.Path u) slash) <? 3)%nat; [discriminate|].
    intros H. injection H as <-. left.
    pose proof (Split_pieces slash (url.Path u)) as Hp.
    pose proof (nth_Count _ slash 1 Hp) as H1.
    pose proof (nth_Count _ slash 2 Hp) as H2.
    split; [exact Hgh|]. split; [reflexivity|]. split.
    + rewrite !Count_app, H1, H2. reflexivity.
    + now apply isRepositoryIdentifier_join.
  - destruct (String.eqb_spec (url.Hostname u) "eu-west-1.console.aws.amazon.com")
      as [Hcon|Hcon]; [|discriminate].
    destruct (negb _); [discriminate|]. cbv zeta.
    destruct (String.eqb_spec (url.Get (url.Query u) "FullRepositoryId") "") as [He|He];
      [discriminate|].
    intros H. injection H as <-. right. now repeat split.
Qed.

Lemma extractRepoName_shape_witness :
  extractRepoName ex_direct = Ok "acme/widgets" /\
  Count "acme/widgets" slash = 1%nat /\
  isRepositoryIdentifier "acme/widgets" = true.
Proof.
  split; [reflexivity|].
  destruct (extractRepoName_shape ex_direct "acme/widgets" eq_refl)
    as [(_ & _ & Hc & Hid) | (Hhost & _)].
  - split; [exact Hc|]. apply Hid. split; discriminate.
  - discriminate Hhost.
Defined.

(** ** The status mapper *)

(** C3. ["InProgress"] maps to ["pending"], ["Succeeded"] to
    ["success"], every other string to ["failure"]. *)
Theorem ghStatusOf_exact :
  ghStatusOf "InProgress" = "pending" /\
  ghStatusOf "Succeeded" = "success" /\
  (forall s : string, s <> "InProgress" -> s <> "Succeeded" -> ghStatusOf s = "failure").
Proof.
  split; [reflexivity|]. split; [reflexivity|].
  intros s H1 H2. unfold ghStatusOf.
  now rewrite (eqb_neq_false _ _ H1), (eqb_neq_false _ _ H2).
Qed.

Lemma ghStatusOf_exact_witness :
  ghStatusOf "" = "failure" /\ ghStatusOf "Failed" = "failure" /\
  ghStatusOf "Stopped" = "failure" /\ ghStatusOf "succeeded" = "failure".
Proof.
  pose proof (proj2 (proj2 ghStatusOf_exact)) as Hother.
  refine (conj (Hother "" _ _) (conj (Hother "Failed" _ _)
            (conj (Hother "Stopped" _ _) (Hother "succeeded" _ _))));
    discriminate.
Defined.

(** ** The invocation, step by step: properties *)

Lemma run_HandleLambdaEvent (env : Env) (ev : event) :
  run (HandleLambdaEvent env ev) = invocation env ev.
Proof.
  unfold run, HandleLambdaEvent, invocation.
  destruct (String.eqb (ExecutionID ev) ""); [reflexivity|].
  destruct (String.eqb (GithubToken ev) ""); [reflexivity|].
  destruct (String.eqb (Pipeline ev) ""); [reflexivity|].
  cbv zeta. fold (lookupInput ev).
  unfold mbind, M_bind, perform, lift, fail, mret, M_ret. simpl app.
  fold isSourceArtifact.
  destruct (GetPipelineExecution env (lookupInput ev)) as [res|e]; [|reflexivity].
  destruct (find isSourceArtifact _) as [a|]; [|reflexivity].
  destruct (url_Parse env (StringValue (codepipeline.RevisionUrl a))) as [u|e];
    [|reflexivity].
  destruct (extractRepoName u) as [repo|err]; [|reflexivity].
  unfold NewRequest. fold (statusURL repo a).
  destruct (url_Parse env (statusURL repo a)) as [gu|e]; [|reflexivity].
  repeat match goal with
  | |- context [client_Do env ?r] =>
      progress change r with (postedRequest ev res gu)
  | |- context [CallDo ?r] =>
      progress change r with (postedRequest ev res gu)
  end.
  unfold notifyOutcome.
  destruct (client_Do env (postedRequest ev res gu)) as [ghRes|e]; [|reflexivity].
  destruct (http.StatusCode ghRes =? 201); reflexivity.
Qed.

Lemma invocation_valid (env : Env) (ev : event) :
  validEvent ev ->
  invocation env ev =
    match GetPipelineExecution env (lookupInput ev) with
    | Err e => ([CallGetPipelineExecution (lookupInput ev)], Some e)
    | Ok res =>
        match
          find isSourceArtifact
            (codepipeline.ArtifactRevisions (codepipeline.PipelineExecution res))
        with
        | None => ([CallGetPipelineExecution (lookupInput ev)],
                   Some (errorString "missing SourceArtifact"))
        | Some a =>
            match url_Parse env (StringValue (codepipeline.RevisionUrl a)) with
            | Err e => ([CallGetPipelineExecution (lookupInput ev)], Some e)
            | Ok u =>
                match extractRepoName u with
                | Err err =>
                    ([CallGetPipelineExecution (lookupInput ev); revisionLog a u],
                     Some (wrapError
                             ("failed to extract repo name from artifact url "
                                +:+ url.String_ u +:+ ": " +:+ Error err) err))
                | Ok repo =>
                    match url_Parse env (statusURL repo a) with
                    | Err e =>
                        ([CallGetPipelineExecution (lookupInput ev); revisionLog a u;
                          statusLog repo a res], Some e)
                    | Ok gu =>
                        ([CallGetPipelineExecution (lookupInput ev); revisionLog a u;
                          statusLog repo a res; CallDo (postedRequest ev res gu)],
                         notifyOutcome (client_Do env (postedRequest ev res gu)))
                    end
                end
            end
        end
    end.
Proof.
  intros (H1 & H2 & H3). unfold invocation.
  now rewrite (eqb_neq_false _ _ H1), (eqb_neq_false _ _ H2), (eqb_neq_false _ _ H3).
Qed.

Lemma validEvent_dec (ev : event) : validEvent ev \/ ~ validEvent ev.
Proof.
  unfold validEvent.
  destruct (String.eqb_spec (ExecutionID ev) ""); [right; tauto|].
  destruct (String.eqb_spec (GithubToken ev) ""); [right; tauto|].
  destruct (String.eqb_spec (Pipeline ev) ""); [right; tauto|].
  left. tauto.
Qed.

Lemma invocation_invalid (env : Env) (ev : event) :
  ~ validEvent ev -> fst (invocation env ev) = [].
Proof.
  unfold validEvent, invocation. intros H.
  destruct (String.eqb_spec (ExecutionID ev) ""); [reflexivity|].
  destruct (String.eqb_spec (GithubToken ev) ""); [reflexivity|].
  destruct (String.eqb_spec (Pipeline ev) ""); [reflexivity|].
  tauto.
Qed.


(** ** The handler: properties *)

(** An invocation that posted a request went through every step before
    it, and returns what the answer to the request decides. *)
Lemma HandleLambdaEvent_CallDo (env : Env) (ev : event)
    (tr : list effect) (out : option error) (req : http.Request) :
  run (HandleLambdaEvent env ev) = (tr, out) ->
  In (CallDo req) tr ->
  exists res sourceArti u repo,
    GetPipelineExecution env (lookupInput ev) = Ok res /\
    find isSourceArtifact
      (codepipeline.ArtifactRevisions (codepipeline.PipelineExecution res))
      = Some sourceArti /\
    url_Parse env (StringValue (codepipeline.RevisionUrl sourceArti)) = Ok u /\
    extractRepoName u = Ok repo /\
    http.Method req = "POST" /\
    url_Parse env ("https://api.github.com/repos/" +:+ repo +:+ "/statuses/"
                     +:+ StringValue (codepipeline.RevisionId sourceArti))
      = Ok (http.URL req) /\
    http.Body req = json.Marshal (ghReqPayload_fields (statusReport ev res)) /\
    out = notifyOutcome (client_Do env req).
Proof.
  unfold run, HandleLambdaEvent.
  destruct (String.eqb (ExecutionID ev) "");
    [simpl; intros H Hin; no_CallDo H Hin|].
  destruct (String.eqb (GithubToken ev) "");
    [simpl; intros H Hin; no_CallDo H Hin|].
  destruct (String.eqb (Pipeline ev) "");
    [simpl; intros H Hin; no_CallDo H Hin|].
  cbv zeta. fold (lookupInput ev).
  unfold mbind, M_bind, perform, lift, fail, mret, M_ret. simpl app.
  destruct (GetPipelineExecution env (lookupInput ev)) as [res|e] eqn:Hget;
    [|intros H Hin; no_CallDo H Hin].
  fold isSourceArtifact.
  destruct (find isSourceArtifact _) as [sourceArti|] eqn:Hfind;
    [|intros H Hin; no_CallDo H Hin].
  destruct (url_Parse env (StringValue (codepipeline.RevisionUrl sourceArti)))
    as [u|e] eqn:Hparse; [|intros H Hin; no_CallDo H Hin].
  destruct (extractRepoName u) as [repo|e] eqn:Hrepo;
    [|intros H Hin; no_CallDo H Hin].
  unfold NewRequest.
  destruct (url_Parse env ("https://api.github.com/repos/" +:+ _)) as [gu|e] eqn:Hgu;
    [|intros H Hin; no_CallDo H Hin].
  match goal with
  | |- context [client_Do env ?r] => set (ghReq := r)
  end.
  intros H Hin.
  assert (Hreq : req = ghReq).
  { destruct (client_Do env ghReq) as [ghRes|e];
      [destruct (negb (http.StatusCode ghRes =? 201))|];
      inversion H; subst; clear H;
      repeat (apply in_app_or in Hin; destruct Hin as [Hin|Hin]);
      simpl in Hin; intuition (try discriminate); congruence. }
  subst req. exists res, sourceArti, u, repo.
  repeat (split; [first [assumption | reflexivity]|]).
  unfold notifyOutcome.
  destruct (client_Do env ghReq) as [ghRes|e]; [|now inversion H].
  destruct (http.StatusCode ghRes =? 201); simpl in H; now inversion H.
Qed.

(** X14. The steps in the other direction: when the lookup, the search,
    the two parses and the resolver succeed, the handler makes the
    lookup, writes the two log lines, posts the request with the token
    in its Authorization header, and returns what the answer decides. *)
Lemma HandleLambdaEvent_reaches_Do (env : Env) (ev : event)
    (res : codepipeline.GetPipelineExecutionOutput)
    (sourceArti : codepipeline.ArtifactRevision)
    (u gu : url.URL) (repo : string) :
  validEvent ev ->
  GetPipelineExecution env (lookupInput ev) = Ok res ->
  find isSourceArtifact
    (codepipeline.ArtifactRevisions (codepipeline.PipelineExecution res))
    = Some sourceArti ->
  url_Parse env (StringValue (codepipeline.RevisionUrl sourceArti)) = Ok u ->
  extractRepoName u = Ok repo ->
  url_Parse env ("https://api.github.com/repos/" +:+ repo +:+ "/statuses/"
                   +:+ StringValue (codepipeline.RevisionId sourceArti)) = Ok gu ->
  exists req : http.Request,
    http.URL req = gu /\
    http.Header_ req !! "Authorization" = Some ["token " +:+ GithubToken ev] /\
    fst (run (HandleLambdaEvent env ev)) =
      [ CallGetPipelineExecution (lookupInput ev);
        LogPrintf ("revision ID: " +:+ StringValue (codepipeline.RevisionId sourceArti)
                     +:+ " URL: " +:+ url.String_ u +:+ newline);
        LogPrintf ("Setting status for repo=" +:+ repo +:+ ", commit="
                     +:+ StringValue (codepipeline.RevisionId sourceArti) +:+ " to "
                     +:+ State (statusReport ev res) +:+ newline);
        CallDo req ] /\
    snd (run (HandleLambdaEvent env ev)) = notifyOutcome (client_Do env req).
Proof.
  intros (H1 & H2 & H3) Hget Hfind Hparse Hrepo Hgu.
  unfold run, HandleLambdaEvent.
  rewrite (eqb_neq_false _ _ H1), (eqb_neq_false _ _ H2), (eqb_neq_false _ _ H3).
  cbv zeta. fold (lookupInput ev).
  unfold mbind, M_bind, perform, lift, fail, mret, M_ret. simpl app.
  fold isSourceArtifact. rewrite Hget, Hfind, Hparse, Hrepo.
  unfold NewRequest. rewrite Hgu.
  match goal with
  | |- context [client_Do env ?r] => set (ghReq := r)
  end.
  exists ghReq. split; [reflexivity|]. split.
  - subst ghReq. unfold setHeader, http.Set_. cbn [http.Header_].
    rewrite lookup_insert_ne by discriminate. apply lookup_insert_eq.
  - unfold notifyOutcome.
    destruct (client_Do env ghReq) as [ghRes|e]; [|split; reflexivity].
    destruct (http.StatusCode ghRes =? 201); split; reflexivity.
Qed.

(** X3. A locator the resolver refuses ends the invocation before the
    POST, with the resolver's error wrapped: the message is "failed to
    extract repo name from artifact url", the locator, ": " and the
    resolver's message, and [Unwrap] gives the resolver's error. *)
Lemma HandleLambdaEvent_resolution_error (env : Env) (ev : event)
    (res : codepipeline.GetPipelineExecutionOutput)
    (sourceArti : codepipeline.ArtifactRevision)
    (u : url.URL) (err : error) :
  validEvent ev ->
  GetPipelineExecution env (lookupInput ev) = Ok res ->
  find isSourceArtifact
    (codepipeline.ArtifactRevisions (codepipeline.PipelineExecution res))
    = Some sourceArti ->
  url_Parse env (StringValue (codepipeline.RevisionUrl sourceArti)) = Ok u ->
  extractRepoName u = Err err ->
  exists e : error,
    snd (run (HandleLambdaEvent env ev)) = Some e /\
    Unwrap e = Some err /\
    Error e = "failed to extract repo name from artifact url "
                +:+ url.String_ u +:+ ": " +:+ Error err /\
    forall req, ~ In (CallDo req) (fst (run (HandleLambdaEvent env ev))).
Proof.
  intros (H1 & H2 & H3) Hget Hfind Hparse Hrepo.
  unfold run, HandleLambdaEvent.
  rewrite (eqb_neq_false _ _ H1), (eqb_neq_false _ _ H2), (eqb_neq_false _ _ H3).
  cbv zeta. fold (lookupInput ev).
  unfold mbind, M_bind, perform, lift, fail, mret, M_ret. simpl app.
  fold isSourceArtifact. rewrite Hget, Hfind, Hparse, Hrepo.
  eexists. split; [reflexivity|]. split; [reflexivity|]. split; [reflexivity|].
  intros req Hin. simpl in Hin. intuition discriminate.
Qed.

Example scenario_1 :
  run (HandleLambdaEvent (exampleEnv [sourceRev] 201) ev1) =
    ([ CallGetPipelineExecution (lookupInput ev1);
       LogPrintf ("revision ID: abc123 URL: https://github.com/acme/widgets/commit/abc123" +:+ newline);
       LogPrintf ("Setting status for repo=acme/widgets, commit=abc123 to success" +:+ newline);
       CallDo exampleRequest ], None).
Proof. vm_compute. reflexivity. Qed.

Example scenario_first_match :
  run (HandleLambdaEvent (exampleEnv [buildRev; sourceRev; otherSourceRev] 201) ev1) =
    run (HandleLambdaEvent (exampleEnv [sourceRev] 201) ev1).
Proof. vm_compute. reflexivity. Qed.

Example scenario_2 :
  run (HandleLambdaEvent (exampleEnv [buildRev] 201) ev1) =
    ([CallGetPipelineExecution (lookupInput ev1)],
     Some (errorString "missing SourceArtifact")).
Proof. reflexivity. Qed.

Example scenario_4 :
  snd (run (HandleLambdaEvent (exampleEnv [sourceRev] 422) ev1)) =
    Some (errorString "unexpected response from GitHub: 422 body: Validation Failed").
Proof. vm_compute. reflexivity. Qed.

Lemma find_first {A : Type} (P : A -> bool) (pre post : list A) (a : A) :
  Forall (fun b => P b = false) pre -> P a = true ->
  find P (pre ++ a :: post) = Some a.
Proof.
  intros Hpre Ha. induction Hpre as [|b pre Hb _ IH]; simpl.
  - now rewrite Ha.
  - now rewrite Hb.
Qed.

Lemma find_absent {A : Type} (P : A -> bool) (l : list A) :
  Forall (fun b => P b = false) l -> find P l = None.
Proof.
  intros Hl. induction Hl as [|b l Hb _ IH]; simpl; [reflexivity|].
  now rewrite Hb.
Qed.

(** C7. An event with an empty execution-id, github-token or pipeline is
    refused with a message that names an empty field, and the trace is
    empty: no execution lookup and no status POST took place. *)
Theorem HandleLambdaEvent_validation (env : Env) (ev : event) :
  ExecutionID ev = "" \/ GithubToken ev = "" \/ Pipeline ev = "" ->
  exists name value : string,
    In (name, value) (eventFields ev) /\ value = "" /\
    run (HandleLambdaEvent env ev) =
      ([], Some (errorString ("missing event param " +:+ name))).
Proof.
  intros H. unfold run, HandleLambdaEvent, eventFields.
  destruct (String.eqb_spec (ExecutionID ev) "") as [E1|E1].
  { exists "execution-id", (ExecutionID ev). simpl. auto. }
  destruct (String.eqb_spec (GithubToken ev) "") as [E2|E2].
  { exists "github-token", (GithubToken ev). simpl. auto. }
  destruct (String.eqb_spec (Pipeline ev) "") as [E3|E3].
  { exists "pipeline", (Pipeline ev). simpl. auto 6. }
  tauto.
Qed.

Lemma HandleLambdaEvent_validation_witness :
  GithubToken ev_no_token = "" /\
  exists name value : string,
    In (name, value) (eventFields ev_no_token) /\ value = "" /\
    run (HandleLambdaEvent (exampleEnv [sourceRev] 201) ev_no_token) =
      ([], Some (errorString ("missing event param " +:+ name))).
Proof.
  split; [reflexivity|].
  apply (HandleLambdaEvent_validation (exampleEnv [sourceRev] 201) ev_no_token).
  right. left. reflexivity.
Defined.

(** X15. The field the message names is the first empty one, in the
    order execution-id, github-token, pipeline. *)
Lemma HandleLambdaEvent_validation_order (env : Env) (ev : event) :
  (ExecutionID ev = "" ->
   run (HandleLambdaEvent env ev) =
     ([], Some (errorString "missing event param execution-id"))) /\
  (ExecutionID ev <> "" -> GithubToken ev = "" ->
   run (HandleLambdaEvent env ev) =
     ([], Some (errorString "missing event param github-token"))) /\
  (ExecutionID ev <> "" -> GithubToken ev <> "" -> Pipeline ev = "" ->
   run (HandleLambdaEvent env ev) =
     ([], Some (errorString "missing event param pipeline"))).
Proof.
  unfold run, HandleLambdaEvent. repeat split.
  - intros ->. reflexivity.
  - intros H1 ->. now rewrite (eqb_neq_false _ _ H1).
  - intros H1 H2 ->. now rewrite (eqb_neq_false _ _ H1), (eqb_neq_false _ _ H2).
Qed.

(** C8. After the lookup, the handler goes on with the first artifact
    revision named "SourceArtifact": it is that revision's locator the
    handler parses and resolves, and that revision's identifier the
    address of the POST ends with; the entries before and after it do
    not change the invocation.  When no revision has that name the
    invocation fails with "missing SourceArtifact", and the lookup is the
    only call it made. *)
Theorem HandleLambdaEvent_SourceArtifact (env : Env) (ev : event)
    (res : codepipeline.GetPipelineExecutionOutput) :
  validEvent ev ->
  GetPipelineExecution env (lookupInput ev) = Ok res ->
  (forall pre a post,
     codepipeline.ArtifactRevisions (codepipeline.PipelineExecution res)
       = pre ++ a :: post ->
     Forall (fun b => isSourceArtifact b = false) pre ->
     isSourceArtifact a = true ->
     run (HandleLambdaEvent env ev) = afterSourceArtifact env ev res a /\
     run (HandleLambdaEvent env ev) =
       run (HandleLambdaEvent (withArtifacts env [a]) ev)) /\
  (Forall (fun b => isSourceArtifact b = false)
     (codepipeline.ArtifactRevisions (codepipeline.PipelineExecution res)) ->
   run (HandleLambdaEvent env ev) =
     ([CallGetPipelineExecution (lookupInput ev)],
      Some (errorString "missing SourceArtifact"))).
Proof.
  intros Hv Hget. split.
  - intros pre a post Harts Hpre Ha.
    assert (Hrun : run (HandleLambdaEvent env ev) = afterSourceArtifact env ev res a).
    { rewrite run_HandleLambdaEvent, (invocation_valid env ev Hv).
      rewrite Hget, Harts, (find_first _ pre post a Hpre Ha). reflexivity. }
    split; [exact Hrun|]. rewrite Hrun.
    rewrite run_HandleLambdaEvent, (invocation_valid _ ev Hv).
    unfold withArtifacts at 1. cbn [GetPipelineExecution]. rewrite Hget.
    cbn [codepipeline.PipelineExecution codepipeline.ArtifactRevisions find].
    rewrite Ha. reflexivity.
  - intros Hnone.
    rewrite run_HandleLambdaEvent, (invocation_valid env ev Hv).
    now rewrite Hget, (find_absent _ _ Hnone).
Qed.

Lemma HandleLambdaEvent_SourceArtifact_witness :
  run (HandleLambdaEvent (exampleEnv [buildRev; sourceRev; otherSourceRev] 201) ev1) =
    ([ CallGetPipelineExecution (lookupInput ev1);
       LogPrintf ("revision ID: abc123 URL: https://github.com/acme/widgets/commit/abc123"
                    +:+ newline);
       LogPrintf ("Setting status for repo=acme/widgets, commit=abc123 to success"
                    +:+ newline);
       CallDo exampleRequest ], None) /\
  run (HandleLambdaEvent (exampleEnv [buildRev] 201) ev1) =
    ([CallGetPipelineExecution (lookupInput ev1)],
     Some (errorString "missing SourceArtifact")).
Proof.
  assert (Hv : validEvent ev1) by (repeat split; discriminate).
  split.
  - refine (eq_trans
              (proj1 (proj1 (HandleLambdaEvent_SourceArtifact
                               (exampleEnv [buildRev; sourceRev; otherSourceRev] 201) ev1
                               (exampleSnapshot [buildRev; sourceRev; otherSourceRev])
                               Hv eq_refl)
                        [buildRev] sourceRev [otherSourceRev] eq_refl _ eq_refl))
              _).
    + repeat constructor.
    + vm_compute. reflexivity.
  - apply (proj2 (HandleLambdaEvent_SourceArtifact
                    (exampleEnv [buildRev] 201) ev1 (exampleSnapshot [buildRev])
                    Hv eq_refl)).
    repeat constructor.
Defined.

(** C9. When GitHub answers the POST, the invocation succeeds exactly
    when the status code is 201; for any other code it fails with an
    error whose message holds the code, in decimal, and the body as it
    was read. *)
Theorem HandleLambdaEvent_notifier (env : Env) (ev : event)
    (tr : list effect) (out : option error)
    (req : http.Request) (ghRes : http.Response) :
  run (HandleLambdaEvent env ev) = (tr, out) ->
  In (CallDo req) tr ->
  client_Do env req = Ok ghRes ->
  (out = None <-> http.StatusCode ghRes = 201) /\
  (http.StatusCode ghRes <> 201 ->
   exists msg : string,
     out = Some (errorString msg) /\
     msg = "unexpected response from GitHub: " +:+ itoa (http.StatusCode ghRes)
             +:+ " body: " +:+ http.ResBody ghRes /\
     Contains msg (itoa (http.StatusCode ghRes)) /\
     Contains msg (http.ResBody ghRes)).
Proof.
  intros Hrun Hin Hdo.
  destruct (HandleLambdaEvent_CallDo env ev tr out req Hrun Hin)
    as (res & a & u & repo & _ & _ & _ & _ & _ & _ & _ & Hout).
  rewrite Hdo in Hout. unfold notifyOutcome in Hout.
  destruct (Z.eqb_spec (http.StatusCode ghRes) 201) as [Hc|Hc]; subst out.
  - split; [tauto | intros Hne; contradiction].
  - split; [split; [discriminate | intros; contradiction]|].
    intros _. eexists. split; [reflexivity|]. split; [reflexivity|]. split.
    + apply Contains_middle.
    + rewrite <- append_assoc, <- append_assoc. apply Contains_end.
Qed.

Lemma HandleLambdaEvent_notifier_witness :
  snd (run (HandleLambdaEvent (exampleEnv [sourceRev] 422) ev1)) =
    Some (errorString "unexpected response from GitHub: 422 body: Validation Failed") /\
  snd (run (HandleLambdaEvent (exampleEnv [sourceRev] 201) ev1)) = None.
Proof.
  split.
  - destruct (proj2 (HandleLambdaEvent_notifier (exampleEnv [sourceRev] 422) ev1
                       _ _ exampleRequest
                       {| http.StatusCode := 422; http.ResBody := "Validation Failed" |}
                       eq_refl
                       (or_intror (or_intror (or_intror (or_introl eq_refl))))
                       eq_refl)
               ltac:(discriminate))
      as (msg & Hout & Hmsg & _).
    subst msg. exact Hout.
  - exact (proj2 (proj1 (HandleLambdaEvent_notifier (exampleEnv [sourceRev] 201) ev1
                    _ _ exampleRequest
                    {| http.StatusCode := 201; http.ResBody := "Validation Failed" |}
                    eq_refl
                    (or_intror (or_intror (or_intror (or_introl eq_refl))))
                    eq_refl)) eq_refl).
Defined.

(** ** The posted document *)

Lemma DecodeSize_app (s t : string) (n : nat) :
  utf8.DecodeSize s = S n -> utf8.DecodeSize (s +:+ t) = S n.
Proof.
  destruct s as [|a [|b [|c [|d s]]]]; try discriminate;
    rewrite ?append_cons; change ("" +:+ t) with t;
    unfold utf8.DecodeSize;
    destruct (utf8.byte a <? 0x80)%N; try (intros H; exact H);
    destruct (utf8.between 0xC2 0xDF a); try discriminate; try (intros H; exact H);
    destruct (utf8.between 0xE0 0xEF a); try discriminate; try (intros H; exact H);
    destruct (utf8.between 0xF0 0xF4 a); try discriminate; try (intros H; exact H).
Qed.

(** A well-formed prefix is copied as it is. *)
Lemma coerce_app (a b : string) (k : nat) :
  utf8.ValidFrom k a = true -> json.coerce k (a +:+ b) = a +:+ json.coerce 0 b.
Proof.
  revert k. induction a as [|x a IH]; intros k.
  - destruct k; [reflexivity | discriminate].
  - rewrite !append_cons. destruct k as [|k].
    + cbn [utf8.ValidFrom json.coerce].
      destruct (utf8.DecodeSize (String x a)) as [|n] eqn:Hs; [discriminate|].
      change (String x (a +:+ b)) with (String x a +:+ b).
      rewrite (DecodeSize_app _ b n Hs). intros H. now rewrite (IH n H).
    + cbn [utf8.ValidFrom json.coerce]. intros H. now rewrite (IH k H).
Qed.

Lemma toValidUTF8_valid (s : string) :
  utf8.ValidString s = true -> json.toValidUTF8 s = s.
Proof.
  intros H. unfold json.toValidUTF8.
  rewrite <- (append_empty_r s) at 1.
  rewrite (coerce_app s "" 0 H). apply append_empty_r.
Qed.

Lemma toValidUTF8_ghStatusOf (s : string) :
  json.toValidUTF8 (ghStatusOf s) = ghStatusOf s.
Proof.
  unfold ghStatusOf.
  destruct (String.eqb s "InProgress"); [reflexivity|].
  destruct (String.eqb s "Succeeded"); reflexivity.
Qed.

(** The console link of a well-formed pipeline name and execution id
    is written as it is. *)
Lemma toValidUTF8_link (pipeline executionId : string) :
  utf8.ValidString pipeline = true ->
  utf8.ValidString executionId = true ->
  json.toValidUTF8
    ("https://eu-west-1.console.aws.amazon.com/codesuite/codepipeline/pipelines/"
       +:+ pipeline +:+ "/executions/" +:+ executionId) =
  "https://eu-west-1.console.aws.amazon.com/codesuite/codepipeline/pipelines/"
    +:+ pipeline +:+ "/executions/" +:+ executionId.
Proof.
  intros Hp He. unfold json.toValidUTF8.
  rewrite coerce_app by reflexivity.
  rewrite (coerce_app pipeline _ 0 Hp).
  rewrite coerce_app by reflexivity.
  now rewrite (toValidUTF8_valid executionId He : json.coerce 0 _ = _).
Qed.

Lemma Marshal_statusReport (ev : event)
    (res : codepipeline.GetPipelineExecutionOutput) :
  json.Marshal (ghReqPayload_fields (statusReport ev res)) =
    json.JObject
      [ ("state",
         json.JString
           (ghStatusOf
              (StringValue (codepipeline.Status (codepipeline.PipelineExecution res)))));
        ("target_url",
         json.JString
           (json.toValidUTF8
              ("https://eu-west-1.console.aws.amazon.com/codesuite/codepipeline/pipelines/"
                 +:+ Pipeline ev +:+ "/executions/" +:+ ExecutionID ev)));
        ("description", json.JString "");
        ("context", json.JString "continuous-integration/codepipeline") ].
Proof.
  unfold json.Marshal, ghReqPayload_fields, statusReport.
  cbn [List.filter map fst snd json.name json.omitempty andb negb
         State TargetURL Description Context].
  rewrite toValidUTF8_ghStatusOf. reflexivity.
Qed.

(** C10, as the specification states it, fails for an event whose
    pipeline name is not UTF-8: the document's [target_url] has U+FFFD
    where the name has the byte 0xFF. *)
Lemma HandleLambdaEvent_payload_not_raw :
  exists req : http.Request,
    In (CallDo req)
      (fst (run (HandleLambdaEvent (exampleEnv [sourceRev] 201) ev_odd_pipeline))) /\
    json.member "target_url" (http.Body req) =
      Some (json.JString
              ("https://eu-west-1.console.aws.amazon.com/codesuite/codepipeline/pipelines/p"
                 +:+ json.replacement +:+ "/executions/exec1")) /\
    json.member "target_url" (http.Body req) <>
      Some (json.JString
              ("https://eu-west-1.console.aws.amazon.com/codesuite/codepipeline/pipelines/"
                 +:+ Pipeline ev_odd_pipeline +:+ "/executions/"
                 +:+ ExecutionID ev_odd_pipeline)).
Proof.
  eexists. split; [|split].
  - vm_compute. right. right. right. left. reflexivity.
  - vm_compute. reflexivity.
  - vm_compute. intros H. discriminate H.
Qed.

(** C10, amended.  Every request the handler posts carries the object
    with [state] the mapped status of the snapshot, [target_url] the
    console link of the event's pipeline and execution with every byte
    that begins no well-formed UTF-8 sequence written as U+FFFD,
    [description] present and empty, and [context]
    "continuous-integration/codepipeline"; when the pipeline name and
    the execution id are UTF-8, [target_url] is the console link
    itself. *)
Theorem HandleLambdaEvent_payload (env : Env) (ev : event)
    (tr : list effect) (out : option error) (req : http.Request) :
  run (HandleLambdaEvent env ev) = (tr, out) ->
  In (CallDo req) tr ->
  exists res : codepipeline.GetPipelineExecutionOutput,
    GetPipelineExecution env (lookupInput ev) = Ok res /\
    http.Body req =
      json.JObject
        [ ("state",
           json.JString
             (ghStatusOf
                (StringValue (codepipeline.Status (codepipeline.PipelineExecution res)))));
          ("target_url",
           json.JString
             (json.toValidUTF8
                ("https://eu-west-1.console.aws.amazon.com/codesuite/codepipeline/pipelines/"
                   +:+ Pipeline ev +:+ "/executions/" +:+ ExecutionID ev)));
          ("description", json.JString "");
          ("context", json.JString "continuous-integration/codepipeline") ] /\
    json.member "description" (http.Body req) = Some (json.JString "") /\
    (utf8.ValidString (Pipeline ev) = true ->
     utf8.ValidString (ExecutionID ev) = true ->
     json.member "target_url" (http.Body req) =
       Some (json.JString
               ("https://eu-west-1.console.aws.amazon.com/codesuite/codepipeline/pipelines/"
                  +:+ Pipeline ev +:+ "/executions/" +:+ ExecutionID ev))).
Proof.
  intros Hrun Hin.
  destruct (HandleLambdaEvent_CallDo env ev tr out req Hrun Hin)
    as (res & a & u & repo & Hget & _ & _ & _ & _ & _ & Hbody & _).
  exists res. split; [exact Hget|].
  rewrite Hbody, Marshal_statusReport.
  split; [reflexivity|]. split; [reflexivity|].
  intros Hp He. cbn [json.member json.assoc String.eqb Ascii.eqb Bool.eqb].
  now rewrite (toValidUTF8_link _ _ Hp He).
Qed.

Lemma HandleLambdaEvent_payload_witness :
  json.member "state" (http.Body exampleRequest) = Some (json.JString "success") /\
  json.member "target_url" (http.Body exampleRequest) =
    Some (json.JString
            ("https://eu-west-1.console.aws.amazon.com/codesuite/codepipeline/pipelines/"
               +:+ Pipeline ev1 +:+ "/executions/" +:+ ExecutionID ev1)) /\
  json.member "description" (http.Body exampleRequest) = Some (json.JString "") /\
  json.member "context" (http.Body exampleRequest) =
    Some (json.JString "continuous-integration/codepipeline").
Proof.
  destruct (HandleLambdaEvent_payload (exampleEnv [sourceRev] 201) ev1 _ _ exampleRequest
              eq_refl (or_intror (or_intror (or_intror (or_introl eq_refl)))))
    as (res & Hget & Hbody & Hdesc & Hurl).
  split; [reflexivity|]. split; [exact (Hurl eq_refl eq_refl)|].
  split; [exact Hdesc | reflexivity].
Defined.

(** ** Strings: splitting and joining *)

Lemma Split_app (c : ascii) (s t : string) :
  Split (s +:+ String c t) c = Split s c ++ Split t c.
Proof.
  induction s as [|a s IH].
  - simpl. now rewrite Ascii.eqb_refl.
  - rewrite append_cons. simpl. destruct (Ascii.eqb a c).
    + now rewrite IH.
    + rewrite IH. pose proof (Split_length c s) as Hlen.
      destruct (Split s c) as [|p ps]; [discriminate Hlen | reflexivity].
Qed.

(** Joining the pieces gives the string back. *)
Lemma Join_Split (c : ascii) (s : string) : Join (Split s c) c = s.
Proof.
  induction s as [|a s IH]; [reflexivity|].
  simpl. pose proof (Split_length c s) as Hlen.
  destruct (Ascii.eqb_spec a c) as [->|Hne].
  - destruct (Split s c) as [|p ps]; [discriminate Hlen|].
    change (Join ("" :: p :: ps) c) with ("" +:+ String c (Join (p :: ps) c)).
    now rewrite IH.
  - destruct (Split s c) as [|p ps]; [discriminate Hlen|].
    destruct ps as [|q qs].
    + simpl in *. now rewrite IH.
    + change (Join (String a p :: q :: qs) c)
        with (String a (p +:+ String c (Join (q :: qs) c))).
      change (Join (p :: q :: qs) c) with (p +:+ String c (Join (q :: qs) c)) in IH.
      now rewrite IH.
Qed.

(** ** The resolver: when it succeeds, and what it ignores *)

(** X12. The resolver succeeds exactly in two cases: on the source host
    when the path has at least two "/", with pieces 1 and 2 joined by
    "/"; on the connection-redirect host when the path is the redirect
    path and the parameter's value is not empty, with that value. *)
Theorem extractRepoName_Ok_iff (u : url.URL) (r : string) :
  extractRepoName u = Ok r <->
  (url.Hostname u = "github.com" /\
   (2 <= Count (url.Path u) slash)%nat /\
   r = nth 1 (Split (url.Path u) slash) "" +:+ "/"
         +:+ nth 2 (Split (url.Path u) slash) "") \/
  (url.Hostname u = consoleHost /\
   url.Path u = redirectPath /\
   url.Get (url.Query u) "FullRepositoryId" = r /\
   r <> "").
Proof.
  unfold extractRepoName, consoleHost, redirectPath.
  rewrite (Split_length slash (url.Path u)).
  destruct (String.eqb_spec (url.Hostname u) "github.com") as [Hgh|Hgh].
  - cbv zeta. destruct (Nat.ltb_spec (S (Count (url.Path u) slash)) 3) as [Hlt|Hge].
    + split; [discriminate|].
      intros [(_ & Hc & _) | (Hcon & _)]; [lia | congruence].
    + split.
      * intros H. injection H as <-. left. repeat split; [exact Hgh | lia].
      * intros [(_ & _ & ->) | (Hcon & _)]; [reflexivity | congruence].
  - destruct (String.eqb_spec (url.Hostname u) "eu-west-1.console.aws.amazon.com")
      as [Hcon|Hcon].
    + destruct (String.eqb_spec (url.Path u) "/codesuite/settings/connections/redirect")
        as [Hp|Hp]; simpl negb; cbv iota zeta.
      * destruct (String.eqb_spec (url.Get (url.Query u) "FullRepositoryId") "")
          as [He|He].
        -- split; [discriminate|].
           intros [(Hh & _) | (_ & _ & Hg & Hr)]; [contradiction | congruence].
        -- split.
           ++ intros H. injection H as <-. right. now repeat split.
           ++ intros [(Hh & _) | (_ & _ & -> & _)]; [contradiction | reflexivity].
      * split; [discriminate|].
        intros [(Hh & _) | (_ & Hp' & _)]; contradiction.
    + split; [discriminate|].
      intros [(Hh & _) | (Hh & _)]; contradiction.
Qed.

Lemma extractRepoName_Ok_iff_witness :
  extractRepoName ex_direct = Ok "acme/widgets" /\
  (extractRepoName ex_owner_only = Ok "acme/" -> False).
Proof.
  split.
  - apply (proj2 (extractRepoName_Ok_iff ex_direct "acme/widgets")).
    left. split; [reflexivity|]. split; [vm_compute; lia | reflexivity].
  - intros H.
    destruct (proj1 (extractRepoName_Ok_iff ex_owner_only "acme/") H)
      as [(_ & Hc & _) | (Hh & _)].
    + vm_compute in Hc. lia.
    + discriminate Hh.
Defined.

(** X13. On the source host, once the path has two "/", what follows a
    further "/" does not matter, and neither do the query and the text of
    the locator. *)
Theorem extractRepoName_ignores_deeper (u : url.URL)
    (rest : string) (q : url.Values) (text : string) :
  url.Hostname u = "github.com" ->
  (2 <= Count (url.Path u) slash)%nat ->
  extractRepoName (deeper u rest q text) = extractRepoName u.
Proof.
  intros Hhost Hc. unfold extractRepoName, deeper. cbn [url.Hostname url.Path].
  rewrite Hhost. simpl String.eqb. cbv iota zeta.
  change ("/" +:+ rest) with (String slash rest).
  rewrite Split_app, length_app.
  pose proof (Split_length slash (url.Path u)) as Hlen.
  assert (H3 : (3 <= length (Split (url.Path u) slash))%nat) by lia.
  rewrite !app_nth1 by lia.
  destruct (Nat.ltb_spec (length (Split (url.Path u) slash)
                            + length (Split rest slash)) 3); [lia|].
  destruct (Nat.ltb_spec (length (Split (url.Path u) slash)) 3); [lia|].
  reflexivity.
Qed.

Lemma extractRepoName_ignores_deeper_witness :
  url.Hostname ex_direct = "github.com" /\
  (2 <= Count (url.Path ex_direct) slash)%nat /\
  extractRepoName (deeper ex_direct "files?diff=split" ∅ "") = extractRepoName ex_direct.
Proof.
  split; [reflexivity|]. split; [vm_compute; lia|].
  apply (extractRepoName_ignores_deeper ex_direct); [reflexivity | vm_compute; lia].
Defined.

(** ** The status mapper: which status gives which state *)

(** X11. The state is "success" only for "Succeeded" and "pending" only
    for "InProgress"; there is no fourth state. *)
Theorem ghStatusOf_states (s : string) :
  (ghStatusOf s = "success" <-> s = "Succeeded") /\
  (ghStatusOf s = "pending" <-> s = "InProgress") /\
  (ghStatusOf s = "pending" \/ ghStatusOf s = "success" \/ ghStatusOf s = "failure").
Proof.
  unfold ghStatusOf.
  destruct (String.eqb_spec s "InProgress") as [->|H1].
  - repeat split; try discriminate; auto.
  - destruct (String.eqb_spec s "Succeeded") as [->|H2].
    + repeat split; try discriminate; auto.
    + repeat split; try discriminate; try contradiction; auto.
Qed.

Lemma ghStatusOf_states_witness :
  ghStatusOf "Succeeded" = "success" /\
  (ghStatusOf "Superseded" = "success" -> False).
Proof.
  split.
  - apply (proj2 (proj1 (ghStatusOf_states "Succeeded"))). reflexivity.
  - intros H. pose proof (proj1 (proj1 (ghStatusOf_states "Superseded")) H) as E.
    discriminate E.
Defined.

(** ** The handler: errors of the steps *)

(** X1. A lookup that fails ends the invocation with the lookup's own
    error; the lookup is the only effect. *)
Theorem HandleLambdaEvent_lookup_error (env : Env) (ev : event) (e : error) :
  validEvent ev ->
  GetPipelineExecution env (lookupInput ev) = Err e ->
  run (HandleLambdaEvent env ev) =
    ([CallGetPipelineExecution (lookupInput ev)], Some e).
Proof.
  intros Hv Hget. rewrite run_HandleLambdaEvent, (invocation_valid env ev Hv).
  now rewrite Hget.
Qed.

Lemma HandleLambdaEvent_lookup_error_witness :
  run (HandleLambdaEvent envLookupFails ev1) =
    ([CallGetPipelineExecution (lookupInput ev1)],
     Some (errorString "PipelineExecutionNotFoundException")).
Proof.
  apply (HandleLambdaEvent_lookup_error envLookupFails ev1); [|reflexivity].
  repeat split; discriminate.
Defined.

(** X2. When the source revision's locator does not parse, the
    invocation ends with the parser's own error, before any log line and
    before the POST. *)
Theorem HandleLambdaEvent_locator_parse_error (env : Env) (ev : event)
    (res : codepipeline.GetPipelineExecutionOutput)
    (a : codepipeline.ArtifactRevision) (e : error) :
  validEvent ev ->
  GetPipelineExecution env (lookupInput ev) = Ok res ->
  find isSourceArtifact
    (codepipeline.ArtifactRevisions (codepipeline.PipelineExecution res)) = Some a ->
  url_Parse env (StringValue (codepipeline.RevisionUrl a)) = Err e ->
  run (HandleLambdaEvent env ev) =
    ([CallGetPipelineExecution (lookupInput ev)], Some e).
Proof.
  intros Hv Hget Hfind Hparse.
  rewrite run_HandleLambdaEvent, (invocation_valid env ev Hv).
  now rewrite Hget, Hfind, Hparse.
Qed.

Lemma HandleLambdaEvent_locator_parse_error_witness :
  run (HandleLambdaEvent (exampleEnv [unparsableRev] 201) ev1) =
    ([CallGetPipelineExecution (lookupInput ev1)],
     Some (errorString "parse: not a locator of the example")).
Proof.
  apply (HandleLambdaEvent_locator_parse_error (exampleEnv [unparsableRev] 201) ev1
           (exampleSnapshot [unparsableRev]) unparsableRev); try reflexivity.
  repeat split; discriminate.
Defined.

(** X5. When the address of the POST does not parse, the invocation ends
    with the parser's own error after the two log lines; nothing is
    posted. *)
Theorem HandleLambdaEvent_address_parse_error (env : Env) (ev : event)
    (res : codepipeline.GetPipelineExecutionOutput)
    (a : codepipeline.ArtifactRevision) (u : url.URL) (repo : string) (e : error) :
  validEvent ev ->
  GetPipelineExecution env (lookupInput ev) = Ok res ->
  find isSourceArtifact
    (codepipeline.ArtifactRevisions (codepipeline.PipelineExecution res)) = Some a ->
  url_Parse env (StringValue (codepipeline.RevisionUrl a)) = Ok u ->
  extractRepoName u = Ok repo ->
  url_Parse env ("https://api.github.com/repos/" +:+ repo +:+ "/statuses/"
                   +:+ StringValue (codepipeline.RevisionId a)) = Err e ->
  run (HandleLambdaEvent env ev) =
    ([CallGetPipelineExecution (lookupInput ev); revisionLog a u; statusLog repo a res],
     Some e).
Proof.
  intros Hv Hget Hfind Hparse Hrepo Hgu.
  rewrite run_HandleLambdaEvent, (invocation_valid env ev Hv).
  rewrite Hget, Hfind, Hparse, Hrepo. unfold statusURL. now rewrite Hgu.
Qed.

Lemma HandleLambdaEvent_address_parse_error_witness :
  run (HandleLambdaEvent (exampleEnv [oddIdRev] 201) ev1) =
    ([CallGetPipelineExecution (lookupInput ev1);
      revisionLog oddIdRev ex_direct;
      statusLog "acme/widgets" oddIdRev (exampleSnapshot [oddIdRev])],
     Some (errorString "parse: not a locator of the example")).
Proof.
  apply (HandleLambdaEvent_address_parse_error (exampleEnv [oddIdRev] 201) ev1
           (exampleSnapshot [oddIdRev]) oddIdRev ex_direct "acme/widgets");
    try reflexivity.
  repeat split; discriminate.
Defined.

(** X6. When the POST gets no response, the invocation ends with the
    HTTP client's own error. *)
Theorem HandleLambdaEvent_Do_error (env : Env) (ev : event)
    (tr : list effect) (out : option error) (req : http.Request) (e : error) :
  run (HandleLambdaEvent env ev) = (tr, out) ->
  In (CallDo req) tr ->
  client_Do env req = Err e ->
  out = Some e.
Proof.
  intros Hrun Hin Hdo.
  destruct (HandleLambdaEvent_CallDo env ev tr out req Hrun Hin)
    as (res & a & u & repo & _ & _ & _ & _ & _ & _ & _ & Hout).
  now rewrite Hdo in Hout.
Qed.

Lemma HandleLambdaEvent_Do_error_witness :
  snd (run (HandleLambdaEvent envDoFails ev1)) =
    Some (errorString "dial tcp: connection refused").
Proof.
  exact (HandleLambdaEvent_Do_error envDoFails ev1 _ _ exampleRequest _
           eq_refl (or_intror (or_intror (or_intror (or_introl eq_refl)))) eq_refl).
Defined.

Lemma HandleLambdaEvent_resolution_error_witness :
  exists e : error,
    snd (run (HandleLambdaEvent envGitlab ev1)) = Some e /\
    Unwrap e = Some (errorString "unknown hostname gitlab.com") /\
    Error e = "failed to extract repo name from artifact url "
                +:+ url.String_ ex_gitlab +:+ ": "
                +:+ Error (errorString "unknown hostname gitlab.com") /\
    forall req, ~ In (CallDo req) (fst (run (HandleLambdaEvent envGitlab ev1))).
Proof.
  apply (HandleLambdaEvent_resolution_error envGitlab ev1
           (exampleSnapshot [sourceRev]) sourceRev ex_gitlab);
    try reflexivity.
  repeat split; discriminate.
Defined.

(** ** The handler: what it posts, and when *)

Lemma postedRequest_Header (ev : event)
    (res : codepipeline.GetPipelineExecutionOutput) (gu : url.URL) :
  http.Header_ (postedRequest ev res gu) =
    {[ "Accept" := ["application/json"];
       "Authorization" := ["token " +:+ GithubToken ev];
       "Content-Type" := ["application/json; charset=utf-8"] ]}.
Proof.
  unfold postedRequest, setHeader, http.Set_. cbn [http.Header_].
  apply map_eq. intros k.
  destruct (decide (k = "Accept")) as [->|H1]; [reflexivity|].
  destruct (decide (k = "Authorization")) as [->|H2].
  - rewrite lookup_insert_ne by discriminate. rewrite lookup_insert_eq.
    rewrite lookup_insert_ne by discriminate. now rewrite lookup_insert_eq.
  - destruct (decide (k = "Content-Type")) as [->|H3].
    + rewrite lookup_insert_eq.
      rewrite !lookup_insert_ne by discriminate. now rewrite lookup_singleton_eq.
    + rewrite !lookup_insert_ne by congruence.
      rewrite lookup_empty. now rewrite lookup_singleton_ne by congruence.
Qed.

(** X4. A request the handler posts is a POST to the parse of
    [https://api.github.com/repos/{repo}/statuses/{rev}], where [repo]
    is what the resolver returns for the first source revision's
    locator and [rev] is that revision's identifier; its headers are
    exactly Accept, Authorization with "token " before the event's
    token, and Content-Type. *)
Theorem HandleLambdaEvent_request (env : Env) (ev : event)
    (tr : list effect) (out : option error) (req : http.Request) :
  run (HandleLambdaEvent env ev) = (tr, out) ->
  In (CallDo req) tr ->
  http.Method req = "POST" /\
  http.Header_ req =
    {[ "Accept" := ["application/json"];
       "Authorization" := ["token " +:+ GithubToken ev];
       "Content-Type" := ["application/json; charset=utf-8"] ]} /\
  exists res a u repo,
    GetPipelineExecution env (lookupInput ev) = Ok res /\
    find isSourceArtifact
      (codepipeline.ArtifactRevisions (codepipeline.PipelineExecution res)) = Some a /\
    url_Parse env (StringValue (codepipeline.RevisionUrl a)) = Ok u /\
    extractRepoName u = Ok repo /\
    url_Parse env ("https://api.github.com/repos/" +:+ repo +:+ "/statuses/"
                     +:+ StringValue (codepipeline.RevisionId a)) = Ok (http.URL req).
Proof.
  rewrite run_HandleLambdaEvent. intros Hrun Hin.
  destruct (validEvent_dec ev) as [Hv|Hv].
  - rewrite (invocation_valid env ev Hv) in Hrun.
    invocation_cases env ev; no_post Hrun Hin.
    subst req. split; [reflexivity|]. split; [apply postedRequest_Header|].
    exists res, a, u, repo. now repeat split.
  - pose proof (invocation_invalid env ev Hv) as Hnil.
    rewrite Hrun in Hnil. simpl in Hnil. subst tr. destruct Hin.
Qed.

Lemma HandleLambdaEvent_request_witness :
  http.Method exampleRequest = "POST" /\
  http.Header_ exampleRequest !! "Authorization" = Some ["token tok"].
Proof.
  destruct (HandleLambdaEvent_request (exampleEnv [sourceRev] 201) ev1 _ _ exampleRequest
              eq_refl (or_intror (or_intror (or_intror (or_introl eq_refl)))))
    as (Hm & Hh & _).
  split; [exact Hm|]. rewrite Hh. reflexivity.
Defined.

(** X7. An invocation that returns no error has posted a request, and
    GitHub has answered it with 201. *)
Theorem HandleLambdaEvent_nil_after_201 (env : Env) (ev : event) :
  snd (run (HandleLambdaEvent env ev)) = None ->
  exists (req : http.Request) (ghRes : http.Response),
    In (CallDo req) (fst (run (HandleLambdaEvent env ev))) /\
    client_Do env req = Ok ghRes /\
    http.StatusCode ghRes = 201.
Proof.
  rewrite run_HandleLambdaEvent. unfold invocation.
  destruct (String.eqb (ExecutionID ev) ""); [discriminate|].
  destruct (String.eqb (GithubToken ev) ""); [discriminate|].
  destruct (String.eqb (Pipeline ev) ""); [discriminate|].
  cbv zeta. invocation_cases env ev; try discriminate.
  unfold notifyOutcome. cbn [fst snd].
  destruct (client_Do env (postedRequest ev res gu)) as [ghRes|e] eqn:Hdo;
    [|discriminate].
  destruct (Z.eqb_spec (http.StatusCode ghRes) 201) as [Hc|Hc]; [|discriminate].
  intros _. exists (postedRequest ev res gu), ghRes.
  split; [simpl; tauto | now split].
Qed.

Lemma HandleLambdaEvent_nil_after_201_witness :
  snd (run (HandleLambdaEvent (exampleEnv [sourceRev] 201) ev1)) = None /\
  exists (req : http.Request) (ghRes : http.Response),
    In (CallDo req) (fst (run (HandleLambdaEvent (exampleEnv [sourceRev] 201) ev1))) /\
    client_Do (exampleEnv [sourceRev] 201) req = Ok ghRes /\
    http.StatusCode ghRes = 201.
Proof.
  split; [vm_compute; reflexivity|].
  apply (HandleLambdaEvent_nil_after_201 (exampleEnv [sourceRev] 201) ev1).
  vm_compute. reflexivity.
Defined.

(** X8. An invocation looks up at most once and posts at most once; a
    lookup is its first effect and is for the event's execution and
    pipeline; a POST is its last effect. *)
Theorem HandleLambdaEvent_single_attempt (env : Env) (ev : event) :
  (length (List.filter isLookup (fst (run (HandleLambdaEvent env ev)))) <= 1)%nat /\
  (length (List.filter isPost (fst (run (HandleLambdaEvent env ev)))) <= 1)%nat /\
  (forall input,
     In (CallGetPipelineExecution input) (fst (run (HandleLambdaEvent env ev))) ->
     input = lookupInput ev /\
     head (fst (run (HandleLambdaEvent env ev)))
       = Some (CallGetPipelineExecution input)) /\
  (forall req,
     In (CallDo req) (fst (run (HandleLambdaEvent env ev))) ->
     last (fst (run (HandleLambdaEvent env ev))) = Some (CallDo req)).
Proof.
  rewrite run_HandleLambdaEvent.
  destruct (validEvent_dec ev) as [Hv|Hv].
  - rewrite (invocation_valid env ev Hv).
    invocation_cases env ev; cbn [fst]; (split; [simpl; lia|]); (split; [simpl; lia|]);
      (split; [intros input Hin | intros req Hin]); simpl in Hin;
      repeat (destruct Hin as [Hin|Hin]; [try discriminate Hin|]);
      try contradiction; injection Hin as <-; simpl; auto.
  - rewrite (invocation_invalid env ev Hv).
    split; [simpl; lia|]. split; [simpl; lia|]. split; intros ? [].
Qed.

Lemma HandleLambdaEvent_single_attempt_witness :
  last (fst (run (HandleLambdaEvent (exampleEnv [sourceRev] 201) ev1)))
    = Some (CallDo exampleRequest) /\
  head (fst (run (HandleLambdaEvent (exampleEnv [sourceRev] 201) ev1)))
    = Some (CallGetPipelineExecution (lookupInput ev1)).
Proof.
  pose proof (HandleLambdaEvent_single_attempt (exampleEnv [sourceRev] 201) ev1)
    as (_ & _ & Hfirst & Hlast).
  split.
  - apply (Hlast exampleRequest).
    exact (or_intror (or_intror (or_intror (or_introl eq_refl)))).
  - apply (Hfirst (lookupInput ev1)). exact (or_introl eq_refl).
Defined.

(** X9. The lookup takes place exactly when none of the event's three
    fields is empty. *)
Theorem HandleLambdaEvent_lookup_iff_valid (env : Env) (ev : event) :
  In (CallGetPipelineExecution (lookupInput ev)) (fst (run (HandleLambdaEvent env ev)))
  <-> validEvent ev.
Proof.
  rewrite run_HandleLambdaEvent. split.
  - intros Hin. destruct (validEvent_dec ev) as [Hv|Hv]; [exact Hv|].
    rewrite (invocation_invalid env ev Hv) in Hin. destruct Hin.
  - intros Hv. rewrite (invocation_valid env ev Hv).
    invocation_cases env ev; simpl; auto.
Qed.

Lemma HandleLambdaEvent_lookup_iff_valid_witness :
  In (CallGetPipelineExecution (lookupInput ev1))
    (fst (run (HandleLambdaEvent envLookupFails ev1))) /\
  (validEvent ev_no_token -> False).
Proof.
  split.
  - apply (proj2 (HandleLambdaEvent_lookup_iff_valid envLookupFails ev1)).
    repeat split; discriminate.
  - intros (_ & H & _). apply H. reflexivity.
Defined.

Lemma withoutAuthorization_postedRequest (ev : event) (token : string)
    (res : codepipeline.GetPipelineExecutionOutput) (gu : url.URL) :
  withoutAuthorization (CallDo (postedRequest (withToken ev token) res gu)) =
  withoutAuthorization (CallDo (postedRequest ev res gu)).
Proof.
  unfold withoutAuthorization, postedRequest, setHeader, http.Set_.
  cbn [http.Method http.URL http.Header_ http.Body].
  rewrite !(delete_insert_ne _ "Authorization" "Content-Type") by discriminate.
  now rewrite !delete_insert_eq.
Qed.

(** X10. The token goes nowhere but into the Authorization header:
    with another non-empty token the invocation makes the same lookup,
    writes the same log lines and posts the same request, that header
    apart. *)
Theorem HandleLambdaEvent_token_only_in_header (env : Env) (ev : event)
    (token : string) :
  GithubToken ev <> "" ->
  token <> "" ->
  map withoutAuthorization (fst (run (HandleLambdaEvent env (withToken ev token)))) =
  map withoutAuthorization (fst (run (HandleLambdaEvent env ev))).
Proof.
  intros Hev Htok. rewrite !run_HandleLambdaEvent.
  destruct (validEvent_dec ev) as [Hv|Hv].
  - assert (Hv' : validEvent (withToken ev token)).
    { destruct Hv as (H1 & _ & H3). now repeat split. }
    rewrite (invocation_valid env ev Hv), (invocation_valid env _ Hv').
    change (lookupInput (withToken ev token)) with (lookupInput ev).
    invocation_cases env ev; cbn [fst map];
      rewrite ?withoutAuthorization_postedRequest; reflexivity.
  - assert (Hv' : ~ validEvent (withToken ev token)).
    { intros (H1 & _ & H3). apply Hv. now repeat split. }
    now rewrite (invocation_invalid env ev Hv), (invocation_invalid env _ Hv').
Qed.

Lemma HandleLambdaEvent_token_only_in_header_witness :
  map withoutAuthorization
    (fst (run (HandleLambdaEvent (exampleEnv [sourceRev] 201) (withToken ev1 "other")))) =
  map withoutAuthorization
    (fst (run (HandleLambdaEvent (exampleEnv [sourceRev] 201) ev1))).
Proof.
  apply (HandleLambdaEvent_token_only_in_header (exampleEnv [sourceRev] 201) ev1 "other");
    discriminate.
Defined.

(** ** Witnesses of the success path and of the order of the checks *)

Lemma HandleLambdaEvent_reaches_Do_witness :
  exists req : http.Request,
    http.URL req = http.URL exampleRequest /\
    http.Header_ req !! "Authorization" = Some ["token " +:+ GithubToken ev1] /\
    fst (run (HandleLambdaEvent (exampleEnv [sourceRev] 201) ev1)) =
      [ CallGetPipelineExecution (lookupInput ev1);
        LogPrintf ("revision ID: " +:+ StringValue (codepipeline.RevisionId sourceRev)
                     +:+ " URL: " +:+ url.String_ ex_direct +:+ newline);
        LogPrintf ("Setting status for repo=" +:+ "acme/widgets" +:+ ", commit="
                     +:+ StringValue (codepipeline.RevisionId sourceRev) +:+ " to "
                     +:+ State (statusReport ev1 (exampleSnapshot [sourceRev])) +:+ newline);
        CallDo req ] /\
    snd (run (HandleLambdaEvent (exampleEnv [sourceRev] 201) ev1)) =
      notifyOutcome (client_Do (exampleEnv [sourceRev] 201) req).
Proof.
  apply (HandleLambdaEvent_reaches_Do (exampleEnv [sourceRev] 201) ev1
           (exampleSnapshot [sourceRev]) sourceRev ex_direct
           (http.URL exampleRequest) "acme/widgets");
    try reflexivity.
  repeat split; discriminate.
Defined.

Lemma HandleLambdaEvent_validation_order_witness :
  run (HandleLambdaEvent (exampleEnv [sourceRev] 201) ev_no_token) =
    ([], Some (errorString "missing event param github-token")) /\
  run (HandleLambdaEvent (exampleEnv [sourceRev] 201)
         {| ExecutionID := ""; GithubToken := ""; Pipeline := "" |}) =
    ([], Some (errorString "missing event param execution-id")).
Proof.
  split.
  - apply (proj1 (proj2 (HandleLambdaEvent_validation_order
                           (exampleEnv [sourceRev] 201) ev_no_token)));
      [discriminate | reflexivity].
  - apply (proj1 (HandleLambdaEvent_validation_order (exampleEnv [sourceRev] 201)
                    {| ExecutionID := ""; GithubToken := ""; Pipeline := "" |})).
    reflexivity.
Defined.
